(** * Conversation suggestion engine: embedding and verification

    Shallow embedding of [app/services/ConversationSuggestionEngine.py]
    (the suggestion pipeline) and of the history buffer kept by
    [ConnectionManager] in [app/main.py].

    Conventions of the embedding:
    - a Python [str] is a sequence of Unicode code points, [list N];
    - a Python [dict] with string keys is a [gmap];
    - a call that may raise has an [outcome]: a returned value or an
      exception; the text-generation backend and the standard [json]
      decoder do not belong to the repository and are parameters. *)

From Stdlib Require Import Strings.String Strings.Ascii NArith Lia.
From stdpp Require Import base option list gmap.

Local Open Scope N_scope.

(** ** Python strings *)

Module PyStr.

Abbreviation char := N.
Abbreviation str := (list N).

(** Source literals are ASCII; a literal is read as its code points. *)
Definition lit (s : string) : str :=
  List.map N_of_ascii (list_ascii_of_string s).

Definition LF : char := 10.
Definition QUOTE : char := 34.
Definition DASH : char := 45.
Definition LBRACKET : char := 91.
Definition RBRACKET : char := 93.

(** [str.isspace] on one character: the code points [str.strip()] removes. *)
Definition isspace (c : char) : bool :=
  ((9 <=? c) && (c <=? 13)) || ((28 <=? c) && (c <=? 32))
  || (c =? 133) || (c =? 160) || (c =? 5760)
  || ((8192 <=? c) && (c <=? 8202))
  || (c =? 8232) || (c =? 8233) || (c =? 8239) || (c =? 8287)
  || (c =? 12288).

Definition mem (chars : str) (c : char) : bool := existsb (N.eqb c) chars.

Fixpoint lstrip_by (p : char -> bool) (s : str) : str :=
  match s with
  | c :: s' => if p c then lstrip_by p s' else s
  | [] => []
  end.

Definition rstrip_by (p : char -> bool) (s : str) : str :=
  rev (lstrip_by p (rev s)).

Definition strip_by (p : char -> bool) (s : str) : str :=
  rstrip_by p (lstrip_by p s).

(** [s.strip()] *)
Definition strip (s : str) : str := strip_by isspace s.

(** [s.strip(chars)] *)
Definition strip_chars (chars : str) (s : str) : str := strip_by (mem chars) s.

(** [s.split(sep)] for a one-character separator: the first piece and the
    remaining pieces. The result of [split] is never empty. *)
Fixpoint split_pieces (sep : char) (s : str) : str * list str :=
  match s with
  | [] => ([], [])
  | c :: s' =>
      let '(piece, pieces) := split_pieces sep s' in
      if c =? sep then ([], piece :: pieces) else (c :: piece, pieces)
  end.

Definition split (sep : char) (s : str) : list str :=
  let '(piece, pieces) := split_pieces sep s in piece :: pieces.

(** The pieces of [c :: s] from those of [s], when [c] is not the
    separator. *)
Definition push (c : char) (pieces : list str) : list str :=
  match pieces with
  | piece :: rest => (c :: piece) :: rest
  | [] => [[c]]
  end.

(** [sep.join(items)] *)
Fixpoint join (sep : str) (items : list str) : str :=
  match items with
  | [] => []
  | [x] => x
  | x :: rest => x ++ sep ++ join sep rest
  end.

(** [s.startswith(c)] for a one-character prefix. *)
Definition startswith (s : str) (c : char) : bool :=
  match s with
  | c0 :: _ => c0 =? c
  | [] => false
  end.

(** Truth value of a string: non-empty. *)
Definition truthy (s : str) : bool :=
  match s with [] => false | _ :: _ => true end.

(** [l[-n:]] for a positive literal [n], and [l[:n]]. *)
Definition slice_last {A} (n : nat) (l : list A) : list A :=
  drop (length l - n)%nat l.

Definition slice_first {A} (n : nat) (l : list A) : list A := take n l.

End PyStr.
Import PyStr.

(** ** Python values, exceptions and outcomes *)

(** The objects [json.loads] builds, which are also the elements of the list
    [generate_suggestions] returns. A number keeps its source token; a
    [dict] keeps its members in source order. *)
#[local] Set Warnings "-register-all".
Inductive pyval : Type :=
| VNone
| VBool (b : bool)
| VNum (token : str)
| VStr (s : str)
| VList (items : list pyval)
| VDict (members : list (str * pyval)).

(** Exceptions, by the classes the handlers of [generate_suggestions] tell
    apart: [json.JSONDecodeError]; [UnboundLocalError], raised by the
    interpreter when a local variable is read before it is bound; any other
    class derived from [Exception]; and the classes derived from
    [BaseException] only ([KeyboardInterrupt], [SystemExit], ...). Messages
    are left out: no handler reads them. *)
Inductive exn : Type :=
| JSONDecodeError
| UnboundLocalError (name : str)
| OtherException (cls : str)
| NonException (cls : str).

(** [isinstance(e, json.JSONDecodeError)] and [isinstance(e, Exception)] *)
Definition is_JSONDecodeError (e : exn) : bool :=
  match e with JSONDecodeError => true | _ => false end.

Definition is_Exception (e : exn) : bool :=
  match e with NonException _ => false | _ => true end.

Inductive outcome (A : Type) : Type :=
| Return (a : A)
| Raise (e : exn).
Arguments Return {A} a.
Arguments Raise {A} e.

(** ** A reference JSON decoder

    [json.loads] is a parameter of the engine below. This decoder follows
    the standard library's scanner ([scanstring], [JSONArray], [JSONObject],
    [scan_once], [JSONDecoder.decode]) and instantiates the parameter on
    concrete inputs. Every failure is a [JSONDecodeError]; the interpreter's
    recursion limit is not modelled. The scanners recurse on a fuel that
    [decode] takes from the length of the text. *)

Module JsonRef.

(** The decoder's own whitespace: space, tab, line feed, carriage return. *)
Definition is_ws (c : char) : bool :=
  (c =? 32) || (c =? 9) || (c =? 10) || (c =? 13).

Definition skip_ws (s : str) : str := lstrip_by is_ws s.

Definition is_digit (c : char) : bool := (48 <=? c) && (c <=? 57).

Definition hex_digit (c : char) : option N :=
  if is_digit c then Some (c - 48)
  else if (97 <=? c) && (c <=? 102) then Some (c - 87)
  else if (65 <=? c) && (c <=? 70) then Some (c - 55)
  else None.

(** The four hex digits after a backslash-u, and the rest of the input. *)
Definition decode_uXXXX (s : str) : option (N * str) :=
  match s with
  | a :: b :: c :: d :: rest =>
      match hex_digit a, hex_digit b, hex_digit c, hex_digit d with
      | Some x, Some y, Some z, Some w =>
          Some (x * 4096 + y * 256 + z * 16 + w, rest)
      | _, _, _, _ => None
      end
  | _ => None
  end.

(** One-character escapes. *)
Definition backslash (c : char) : option char :=
  if c =? 34 then Some 34 else if c =? 92 then Some 92
  else if c =? 47 then Some 47 else if c =? 98 then Some 8
  else if c =? 102 then Some 12 else if c =? 110 then Some 10
  else if c =? 114 then Some 13 else if c =? 116 then Some 9
  else None.

(** [scanstring], strict: the input starts after the opening quote;
    [acc] holds the decoded characters so far, newest first. *)
Fixpoint scanstring (fuel : nat) (s acc : str) : option (str * str) :=
  match fuel, s with
  | O, _ | _, [] => None
  | S fuel, c :: rest =>
      if c =? 34 then Some (rev acc, rest)
      else if c <? 32 then None
      else if c =? 92 then
        match rest with
        | [] => None
        | esc :: rest1 =>
            if esc =? 117 then
              match decode_uXXXX rest1 with
              | None => None
              | Some (uni, rest2) =>
                  let single := scanstring fuel rest2 (uni :: acc) in
                  if (55296 <=? uni) && (uni <=? 56319) then
                    match rest2 with
                    | 92 :: 117 :: rest3 =>
                        match decode_uXXXX rest3 with
                        | None => None
                        | Some (uni2, rest4) =>
                            if (56320 <=? uni2) && (uni2 <=? 57343) then
                              scanstring fuel rest4
                                (65536 + ((uni - 55296) * 1024 + (uni2 - 56320)) :: acc)
                            else single
                        end
                    | _ => single
                    end
                  else single
              end
            else
              match backslash esc with
              | Some ch => scanstring fuel rest1 (ch :: acc)
              | None => None
              end
        end
      else scanstring fuel rest (c :: acc)
  end.

(** The longest run of digits at the start, and the rest. *)
Fixpoint span_digits (s : str) : str * str :=
  match s with
  | c :: s' =>
      if is_digit c then let '(ds, rest) := span_digits s' in (c :: ds, rest)
      else ([], s)
  | [] => ([], [])
  end.

(** The number pattern: integer part, optional fraction, optional exponent.
    Returns the matched token and the rest. *)
Definition match_int (s : str) : option (str * str) :=
  let '(sign, s1) :=
    match s with 45 :: s1 => ([45], s1) | _ => ([], s) end in
  match s1 with
  | 48 :: s2 => Some (sign ++ [48], s2)
  | c :: _ =>
      if is_digit c then
        let '(ds, s2) := span_digits s1 in Some (sign ++ ds, s2)
      else None
  | [] => None
  end.

Definition match_frac (s : str) : str * str :=
  match s with
  | 46 :: s1 =>
      match span_digits s1 with
      | ([], _) => ([], s)
      | (ds, s2) => (46 :: ds, s2)
      end
  | _ => ([], s)
  end.

Definition match_exp (s : str) : str * str :=
  match s with
  | e :: s1 =>
      if (e =? 101) || (e =? 69) then
        let '(sign, s2) :=
          match s1 with
          | c :: s2 => if (c =? 45) || (c =? 43) then ([c], s2) else ([], s1)
          | [] => ([], s1)
          end in
        match span_digits s2 with
        | ([], _) => ([], s)
        | (ds, s3) => (e :: sign ++ ds, s3)
        end
      else ([], s)
  | [] => ([], s)
  end.

Definition match_number (s : str) : option (str * str) :=
  match match_int s with
  | None => None
  | Some (i, s1) =>
      let '(f, s2) := match_frac s1 in
      let '(e, s3) := match_exp s2 in
      Some (i ++ f ++ e, s3)
  end.

(** [s] starts with the literal [w]: the rest after it. *)
Fixpoint after_prefix (w s : str) : option str :=
  match w, s with
  | [], _ => Some s
  | a :: w', b :: s' => if a =? b then after_prefix w' s' else None
  | _ :: _, [] => None
  end.

Definition constants : list (string * pyval) :=
  [ ("null", VNone); ("true", VBool true); ("false", VBool false) ]%string.

(** [NaN], [Infinity], [-Infinity]: floats, kept as their tokens. *)
Definition float_constants : list string :=
  [ "NaN"; "Infinity"; "-Infinity" ]%string.

Definition scan_constant (s : str) : option (pyval * str) :=
  head (omap (fun '(w, v) => pair v <$> after_prefix (lit w) s) constants).

Definition scan_float_constant (s : str) : option (pyval * str) :=
  head (omap (fun w => pair (VNum (lit w)) <$> after_prefix (lit w) s)
          float_constants).

(** [scan_once] with the loops of [JSONArray] and [JSONObject]; the loops
    start at the first element, after the look-ahead for the empty case. *)
Fixpoint scan_once (fuel : nat) (s : str) : option (pyval * str) :=
  match fuel with
  | O => None
  | S fuel =>
      match s with
      | [] => None
      | c :: rest =>
          if c =? 34 then
            match scanstring (length rest) rest [] with
            | Some (v, r) => Some (VStr v, r)
            | None => None
            end
          else if c =? 123 then
            match skip_ws rest with
            | 125 :: r => Some (VDict [], r)
            | r => object_members fuel r []
            end
          else if c =? 91 then
            match skip_ws rest with
            | 93 :: r => Some (VList [], r)
            | r => array_items fuel r []
            end
          else
            match scan_constant s with
            | Some x => Some x
            | None =>
                match match_number s with
                | Some (tok, r) => Some (VNum tok, r)
                | None => scan_float_constant s
                end
            end
      end
  end
with array_items (fuel : nat) (s : str) (acc : list pyval)
  : option (pyval * str) :=
  match fuel with
  | O => None
  | S fuel =>
      match scan_once fuel s with
      | None => None
      | Some (v, r) =>
          match skip_ws r with
          | 93 :: r' => Some (VList (rev (v :: acc)), r')
          | 44 :: r' => array_items fuel (skip_ws r') (v :: acc)
          | _ => None
          end
      end
  end
with object_members (fuel : nat) (s : str) (acc : list (str * pyval))
  : option (pyval * str) :=
  match fuel with
  | O => None
  | S fuel =>
      match s with
      | 34 :: r0 =>
          match scanstring (length r0) r0 [] with
          | None => None
          | Some (key, r1) =>
              match skip_ws r1 with
              | 58 :: r2 =>
                  match scan_once fuel (skip_ws r2) with
                  | None => None
                  | Some (v, r3) =>
                      match skip_ws r3 with
                      | 125 :: r4 => Some (VDict (rev ((key, v) :: acc)), r4)
                      | 44 :: r4 =>
                          object_members fuel (skip_ws r4) ((key, v) :: acc)
                      | _ => None
                      end
                  end
              | _ => None
              end
          end
      | _ => None
      end
  end.

(** [JSONDecoder.decode]: one value between optional whitespace, and
    nothing after it. *)
Definition decode (s : str) : option pyval :=
  match scan_once (2 * length s + 2) (skip_ws s) with
  | Some (v, r) => match skip_ws r with [] => Some v | _ :: _ => None end
  | None => None
  end.

Definition loads (s : str) : outcome pyval :=
  match decode s with
  | Some v => Return v
  | None => Raise JSONDecodeError
  end.

End JsonRef.

(** ** The suggestion engine ([ConversationSuggestionEngine]) *)

(** A message is a [dict] from strings to strings. *)
Abbreviation message := (gmap str str).

(** The hard-coded list of the last handler of [generate_suggestions]. *)
Definition fallback_suggestions : list pyval :=
  [ VStr (lit "Let's change the topic.");
    VStr (lit "Expand on that idea.");
    VStr (lit "How did that make you feel?") ].

(** [cleaned]: [line.strip()], then [strip] with the two characters quote
    and dash, then [strip()] again. *)
Definition clean_line (line : str) : str :=
  strip (strip_chars [QUOTE; DASH] (strip line)).

(** The test that guards [suggestions.append(cleaned)]. *)
Definition keep_line (cleaned : str) : bool :=
  truthy cleaned
  && negb (startswith cleaned LBRACKET)
  && negb (startswith cleaned RBRACKET).

(** The handler of [json.JSONDecodeError], once [response] is read: the loop
    over the lines of the stripped response, then [suggestions[:3]]. *)
Definition split_recovery (response : str) : list pyval :=
  let lines := split LF (strip response) in
  let suggestions :=
    fold_left
      (fun suggestions line =>
         let cleaned := clean_line line in
         if keep_line cleaned then suggestions ++ [VStr cleaned]
         else suggestions)
      lines [] in
  slice_first 3 suggestions.

(** The [except] clauses, in order. [response] is the local variable of that
    name: [None] while the assignment in the [try] body has not run. An
    exception raised inside a handler leaves the whole statement. The
    [print] of the last handler writes to the standard output, which is not
    part of the model. *)
Definition except_clauses (e : exn) (response : option str)
  : outcome (list pyval) :=
  if is_JSONDecodeError e then
    match response with
    | Some response => Return (split_recovery response)
    | None => Raise (UnboundLocalError (lit "response"))
    end
  else if is_Exception e then Return fallback_suggestions
  else Raise e.

(** The history loop of [get_contextual_suggestions]: one line per message
    of [recent_messages[-5:]], appended to [history]. *)
Definition render_message (msg : message) : str :=
  let role := default (lit "user") (msg !! lit "role") in
  let content := default [] (msg !! lit "content") in
  role ++ lit ": " ++ content ++ [LF].

Definition format_history (recent_messages : list message) : str :=
  fold_left (fun history msg => history ++ render_message msg)
    (slice_last 5 recent_messages) [].

(** [preferences]: [user_interests] is [None] or a list; both [None] and the
    empty list are false. *)
Definition format_preferences (user_interests : option (list str)) : str :=
  match user_interests with
  | Some ((_ :: _) as interests) =>
      lit "User is interested in: " ++ join (lit ", ") interests
  | Some [] | None => []
  end.

(** [context] *)
Definition format_context (topic : str) : str :=
  if truthy topic then lit "Current topic: " ++ topic
  else lit "General conversation".

Section Engine.

(** The state of the chain (its window memory and the model runtime behind
    it) and one run of it on the three prompt variables: a text or an
    exception, and the next state. *)
Context {backend : Type}.
Variable suggestion_chain_run :
  str -> str -> str -> backend -> outcome str * backend.

(** [json.loads] *)
Variable json_loads : str -> outcome pyval.

(** The body of the [try] statement: its outcome, the binding of the local
    [response] when it ends, and the backend afterwards. *)
Definition try_body (conversation_history current_topic user_preferences : str)
    (b : backend) : outcome (list pyval) * option str * backend :=
  match suggestion_chain_run conversation_history current_topic
          user_preferences b with
  | (Raise e, b') => (Raise e, None, b')
  | (Return response, b') =>
      match json_loads (strip response) with
      | Raise e => (Raise e, Some response, b')
      | Return suggestions =>
          match suggestions with
          | VList items => (Return (slice_first 3 items), Some response, b')
          | _ => (Return [VStr response], Some response, b')
          end
      end
  end.

Definition generate_suggestions
    (conversation_history current_topic user_preferences : str)
    (b : backend) : outcome (list pyval) * backend :=
  let '(result, response, b') :=
    try_body conversation_history current_topic user_preferences b in
  match result with
  | Return suggestions => (Return suggestions, b')
  | Raise e => (except_clauses e response, b')
  end.

Definition get_contextual_suggestions (recent_messages : list message)
    (topic : str) (user_interests : option (list str)) (b : backend)
  : outcome (list pyval) * backend :=
  let history := format_history recent_messages in
  let preferences := format_preferences user_interests in
  let context := format_context topic in
  generate_suggestions history context preferences b.

End Engine.

(** ** The history buffer ([ConnectionManager]) *)

Module ConnectionManager.

(** A connection object, by identity. *)
Definition websocket : Type := N.

Record t : Type := mk {
  active_connections : list websocket;
  conversation_histories : gmap str (list message)
}.

Definition init : t :=
  {| active_connections := []; conversation_histories := ∅ |}.

Definition connect (ws : websocket) (client_id : str) (self : t) : t :=
  {| active_connections := active_connections self ++ [ws];
     conversation_histories := <[client_id := []]> (conversation_histories self) |}.

(** [list.remove]: drops the first occurrence, [ValueError] when absent. *)
Fixpoint list_remove (x : websocket) (l : list websocket)
  : option (list websocket) :=
  match l with
  | [] => None
  | y :: l' => if x =? y then Some l' else cons y <$> list_remove x l'
  end.

Definition disconnect (ws : websocket) (client_id : str) (self : t)
  : outcome t :=
  match list_remove ws (active_connections self) with
  | None => Raise (OtherException (lit "ValueError"))
  | Some conns =>
      Return {| active_connections := conns;
                conversation_histories :=
                  delete client_id (conversation_histories self) |}
  end.

(** The three statements of [add_message_to_history]. After the first the
    key is present, so the subscripts of the next two cannot fail. *)
Definition add_message_to_history (client_id role content : str) (self : t)
  : t :=
  let h0 := conversation_histories self in
  let h1 :=
    match h0 !! client_id with
    | None => <[client_id := []]> h0
    | Some _ => h0
    end in
  let msg : message := {[ lit "role" := role; lit "content" := content ]} in
  let h2 := alter (fun history => history ++ [msg]) client_id h1 in
  let h3 :=
    match h2 !! client_id with
    | Some history =>
        if (20 <? length history)%nat
        then <[client_id := slice_last 20 history]> h2
        else h2
    | None => h2
    end in
  {| active_connections := active_connections self;
     conversation_histories := h3 |}.

(** The history of a client as the endpoints read it:
    [conversation_histories.get(client_id, [])]. *)
Definition history_of (client_id : str) (self : t) : list message :=
  default [] (conversation_histories self !! client_id).

(** One call of a method of the manager. *)
Inductive step : t -> t -> Prop :=
| step_connect ws client_id self :
    step self (connect ws client_id self)
| step_disconnect ws client_id self self' :
    disconnect ws client_id self = Return self' -> step self self'
| step_add client_id role content self :
    step self (add_message_to_history client_id role content self).

(** Every history holds at most 20 messages. *)
Definition bounded (self : t) : Prop :=
  forall client_id history,
    conversation_histories self !! client_id = Some history ->
    (length history <= 20)%nat.

End ConnectionManager.

(** ** Backends for concrete runs, and the wording of the specification *)

(** A backend without state whose run has a fixed outcome. *)
Definition fixed_run (o : outcome str)
  : str -> str -> str -> unit -> outcome str * unit :=
  fun _ _ _ b => (o, b).

(** A backend that logs the three prompt variables of every run of the
    chain it wraps. *)
Definition recording_run {backend : Type}
    (run : str -> str -> str -> backend -> outcome str * backend)
  : str -> str -> str -> backend * list (str * str * str)
    -> outcome str * (backend * list (str * str * str)) :=
  fun h t p '(b, log) =>
    let '(o, b') := run h t p b in (o, (b', log ++ [(h, t, p)])).

(** The cleaned lines of a text that pass a test, in order. *)
Definition cleaned_lines (keep : str -> bool) (text : str) : list str :=
  List.filter keep (List.map clean_line (split LF text)).

(** [s == c] for a one-character string [c]. *)
Definition is_char (s : str) (c : char) : bool :=
  match s with
  | [c0] => c0 =? c
  | _ => false
  end.

(** The line recovery in the words of the specification: split the raw text
    by line breaks, clean each line, discard the empty lines and the lines
    that are exactly one bracket, keep the first three. *)
Definition spec_keep_line (cleaned : str) : bool :=
  truthy cleaned
  && negb (is_char cleaned LBRACKET)
  && negb (is_char cleaned RBRACKET).

Definition spec_split_recovery (raw : str) : list pyval :=
  List.map VStr (take 3 (cleaned_lines spec_keep_line raw)).

(** No character of [s] is a bracket. *)
Definition no_bracket (s : str) : bool :=
  forallb (fun c => negb (mem [LBRACKET; RBRACKET] c)) s.

(** Texts for concrete runs: a JSON array of strings without escapes, and
    the messages of the scenario of the specification. *)
Definition quoted (s : str) : str := QUOTE :: s ++ [QUOTE].

Definition json_array_text (items : list str) : str :=
  lit "[" ++ join (lit ", ") (List.map quoted items) ++ lit "]".

Definition five_letters : list str :=
  [lit "A"; lit "B"; lit "C"; lit "D"; lit "E"].

Definition mk_message (role content : str) : message :=
  {[ lit "role" := role; lit "content" := content ]}.

Definition hi_hello : list message :=
  [mk_message (lit "user") (lit "Hi"); mk_message (lit "assistant") (lit "Hello!")].

Definition five_text : str := lit " " ++ json_array_text five_letters ++ [LF].

(** A text that is not JSON and whose first line starts with a bracket. *)
Definition bracket_line_text : str := lit "[abc" ++ [LF] ++ lit "foo".

(** A quoted line, an empty line and a dashed line. *)
Definition two_line_text : str :=
  quoted (lit "Tell me more") ++ [LF; LF] ++ lit "- Why so?  " ++ [LF].

(** A manager with one client whose history is full: messages 0 to 19. *)
Definition numbered (n : nat) : message :=
  mk_message (lit "user") [48 + N.of_nat n].

Definition full_manager : ConnectionManager.t :=
  {| ConnectionManager.active_connections := [1];
     ConnectionManager.conversation_histories :=
       {[ lit "test-client" := List.map numbered (seq 0 20) ]} |}.

(** ** The endpoints ([main.py])

    One coroutine of [websocket_endpoint] is followed from [accept] to its
    end, without the steps of other coroutines between its own; what
    [receive_text] gives is the list of events of the session. *)

(** [d[key]] on a decoded [dict]: of several members with the same key the
    last one is the value. *)
Definition dict_lookup (key : str) (members : list (str * pyval)) : option pyval :=
  snd <$> List.find (fun member => bool_decide (member.1 = key)) (rev members).

(** [v[key]] for a string key: [KeyError] on a [dict] without the key,
    [TypeError] on every other value. *)
Definition subscript (v : pyval) (key : str) : outcome pyval :=
  match v with
  | VDict members =>
      match dict_lookup key members with
      | Some x => Return x
      | None => Raise (OtherException (lit "KeyError"))
      end
  | _ => Raise (OtherException (lit "TypeError"))
  end.

(** [v == s] for a string [s]. *)
Definition is_str (v : pyval) (s : str) : bool :=
  match v with
  | VStr s' => bool_decide (s' = s)
  | _ => false
  end.

(** [isinstance(e, WebSocketDisconnect)] *)
Definition is_WebSocketDisconnect (e : exn) : bool :=
  match e with
  | OtherException cls => bool_decide (cls = lit "WebSocketDisconnect")
  | _ => false
  end.

Definition WebSocketDisconnect : exn := OtherException (lit "WebSocketDisconnect").

(** Several calls of [add_message_to_history] for one client, in order. *)
Definition add_messages (client_id : str) (msgs : list (str * str))
    (self : ConnectionManager.t) : ConnectionManager.t :=
  foldl (fun self '(role, content) =>
           ConnectionManager.add_message_to_history client_id role content self)
    self msgs.

Module Endpoint.
Import ConnectionManager.

(** The dicts handed to [send_message], before [json.dumps]. *)
Inductive outbound : Type :=
| MessageFrame (role content : str)
| SuggestionsFrame (suggestions : list pyval).

(** What [receive_text] gives: a text frame, or an exception. *)
Inductive event : Type :=
| Text (data : str)
| ReceiveError (e : exn).

(** What the loop body does with a decoded frame. *)
Inductive action : Type :=
| ActMessage (user_message : pyval)
| ActSuggestions
| ActNone.

(** The tests of the loop body: the type of the frame against the two
    known types, and the content of a message. *)
Definition dispatch (message_data : pyval) : outcome action :=
  match subscript message_data (lit "type") with
  | Raise e => Raise e
  | Return type =>
      if is_str type (lit "message") then
        match subscript message_data (lit "content") with
        | Raise e => Raise e
        | Return user_message => Return (ActMessage user_message)
        end
      else if is_str type (lit "get_suggestions") then Return ActSuggestions
      else Return ActNone
  end.

(** The process: the manager, the backend of the engine, the network. *)
Record world {backend net : Type} : Type := mkWorld {
  manager : ConnectionManager.t;
  engine : backend;
  wire : net
}.
Arguments world : clear implicits.
Arguments mkWorld {backend net}.

(** Statements in sequence: an exception ends the sequence and keeps what
    the statements before it did. *)
Definition M (W A : Type) : Type := W -> outcome A * W.

Definition ret {W A} (a : A) : M W A := fun w => (Return a, w).

Definition bind {W A B} (m : M W A) (k : A -> M W B) : M W B :=
  fun w =>
    match m w with
    | (Return a, w') => k a w'
    | (Raise e, w') => (Raise e, w')
    end.

#[global] Instance M_ret {W} : MRet (M W) := fun A => @ret W A.
#[global] Instance M_bind {W} : MBind (M W) := fun A B k m => @bind W A B m k.

(** The outcome of a session: still waiting in [receive_text], or the
    coroutine has ended. *)
Inductive session : Type :=
| Waiting
| Done (o : outcome unit).

(** The request body of [/suggestions]: each key present or absent. *)
Record request : Type := mkRequest {
  req_conversation_history : option (list message);
  req_topic : option str;
  req_user_interests : option (list str)
}.

Record response : Type := mkResponse {
  suggestions : list pyval;
  status : str
}.

(** The placeholder answer of the endpoint to a user message. *)
Definition avatar_response (user_message : str) : str :=
  lit "I understand you said: " ++ user_message.

Section Endpoints.

Context {backend net : Type}.
Variable suggestion_chain_run :
  str -> str -> str -> backend -> outcome str * backend.
Variable json_loads : str -> outcome pyval.

(** [websocket.accept()] and [websocket.send_text(json.dumps(message))]. *)
Variable accept : websocket -> net -> outcome unit * net.
Variable send_text : websocket -> outbound -> net -> outcome unit * net.

Abbreviation W := (world backend net).

Definition update_manager (f : ConnectionManager.t -> ConnectionManager.t)
  : M W unit :=
  fun w => (Return tt, mkWorld (f (manager w)) (engine w) (wire w)).

Definition on_wire (io : net -> outcome unit * net) : M W unit :=
  fun w => let '(o, n) := io (wire w) in (o, mkWorld (manager w) (engine w) n).

Definition send_message (message : outbound) (ws : websocket) : M W unit :=
  on_wire (send_text ws message).

(** [suggestion_engine.get_contextual_suggestions(...)] on the engine of the
    process. *)
Definition suggest (recent_messages : list message) (topic : str)
    (user_interests : option (list str)) : M W (list pyval) :=
  fun w =>
    let '(o, b) :=
      get_contextual_suggestions suggestion_chain_run json_loads
        recent_messages topic user_interests (engine w) in
    (o, mkWorld (manager w) b (wire w)).

(** The branch of a message frame. *)
Definition on_message (ws : websocket) (client_id user_message : str)
  : M W unit :=
  update_manager (add_message_to_history client_id (lit "user") user_message);;
  send_message (MessageFrame (lit "user") user_message) ws;;
  let avatar_response := avatar_response user_message in
  update_manager
    (add_message_to_history client_id (lit "assistant") avatar_response);;
  send_message (MessageFrame (lit "assistant") avatar_response) ws.

(** The branch of a request for suggestions. *)
Definition on_get_suggestions (ws : websocket) (client_id : str) : M W unit :=
  fun w =>
    let conversation_history := history_of client_id (manager w) in
    (suggestions ← suggest conversation_history [] None;
     send_message (SuggestionsFrame suggestions) ws) w.

(** The loop body after [receive_text] has returned [data]. The content of
    a message is a string, as [add_message_to_history] declares it; the
    function is not defined on a message with another content. *)
Definition on_frame (ws : websocket) (client_id data : str) (w : W)
  : option (outcome unit * W) :=
  match json_loads data with
  | Raise e => Some (Raise e, w)
  | Return message_data =>
      match dispatch message_data with
      | Raise e => Some (Raise e, w)
      | Return (ActMessage (VStr user_message)) =>
          Some (on_message ws client_id user_message w)
      | Return (ActMessage _) => None
      | Return ActSuggestions => Some (on_get_suggestions ws client_id w)
      | Return ActNone => Some (Return tt, w)
      end
  end.

(** The frames on which [on_frame] is defined: a frame that decodes to a
    message carries a string as its content. *)
Definition string_content (data : str) : bool :=
  match json_loads data with
  | Raise _ => true
  | Return message_data =>
      match dispatch message_data with
      | Return (ActMessage (VStr _)) => true
      | Return (ActMessage _) => false
      | Return ActSuggestions | Return ActNone | Raise _ => true
      end
  end.

Definition string_contents (events : list event) : bool :=
  forallb (fun ev => match ev with
                     | Text data => string_content data
                     | ReceiveError _ => true
                     end) events.

(** An exception leaves the loop: the handler of [WebSocketDisconnect]
    calls [disconnect]; every other exception leaves the coroutine. *)
Definition on_exception (ws : websocket) (client_id : str) (e : exn) (w : W)
  : session * W :=
  if is_WebSocketDisconnect e then
    match disconnect ws client_id (manager w) with
    | Return m => (Done (Return tt), mkWorld m (engine w) (wire w))
    | Raise e' => (Done (Raise e'), w)
    end
  else (Done (Raise e), w).

(** The [while True] loop over what [receive_text] gives. *)
Fixpoint serve (ws : websocket) (client_id : str) (events : list event) (w : W)
  : option (session * W) :=
  match events with
  | [] => Some (Waiting, w)
  | ev :: events' =>
      match
        match ev with
        | Text data => on_frame ws client_id data w
        | ReceiveError e => Some (Raise e, w)
        end
      with
      | None => None
      | Some (Return _, w') => serve ws client_id events' w'
      | Some (Raise e, w') => Some (on_exception ws client_id e w')
      end
  end.

(** [websocket_endpoint]: [manager.connect], outside the [try], then the
    loop. *)
Definition websocket_endpoint (ws : websocket) (client_id : str)
    (events : list event) (w : W) : option (session * W) :=
  match accept ws (wire w) with
  | (Raise e, n) => Some (Done (Raise e), mkWorld (manager w) (engine w) n)
  | (Return _, n) =>
      serve ws client_id events
        (mkWorld (connect ws client_id (manager w)) (engine w) n)
  end.

(** [get_suggestions_api]. The default of [topic] is the empty list, which
    is false like the empty string. *)
Definition get_suggestions_api (request : request) (b : backend)
  : outcome response * backend :=
  let conversation_history := default [] (req_conversation_history request) in
  let topic := default [] (req_topic request) in
  let user_interests := default [] (req_user_interests request) in
  match
    get_contextual_suggestions suggestion_chain_run json_loads
      conversation_history topic (Some user_interests) b
  with
  | (Return suggestions, b') =>
      (Return (mkResponse suggestions (lit "success")), b')
  | (Raise e, b') => (Raise e, b')
  end.

End Endpoints.

(** A network that accepts every connection, delivers every frame and keeps
    the frames it delivered. *)
Definition accept_all (ws : websocket) (sent : list outbound)
  : outcome unit * list outbound := (Return tt, sent).

Definition deliver (ws : websocket) (frame : outbound) (sent : list outbound)
  : outcome unit * list outbound := (Return tt, sent ++ [frame]).

(** A network on which every send fails: the client has gone. *)
Definition refuse (ws : websocket) (frame : outbound) (sent : list outbound)
  : outcome unit * list outbound := (Raise WebSocketDisconnect, sent).

(** The two frames of the page: a message [Hi] and a request for
    suggestions; and a text that is not JSON. *)
Definition message_frame_text : str :=
  lit "{" ++ quoted (lit "type") ++ lit ": " ++ quoted (lit "message") ++ lit ", "
  ++ quoted (lit "content") ++ lit ": " ++ quoted (lit "Hi") ++ lit "}".

Definition get_suggestions_frame_text : str :=
  lit "{" ++ quoted (lit "type") ++ lit ": " ++ quoted (lit "get_suggestions")
  ++ lit "}".

Definition ping_frame_text : str :=
  lit "{" ++ quoted (lit "type") ++ lit ": " ++ quoted (lit "ping") ++ lit "}".

(** A process with the full manager, a backend without state and nothing
    sent yet. *)
Definition full_world : world unit (list outbound) :=
  mkWorld full_manager tt [].

End Endpoint.

(** A recovered suggestion is a string that is not empty, does not start
    with a bracket, has no whitespace at either end and no line feed. *)
Definition tidy (v : pyval) : Prop :=
  exists s, v = VStr s
    /\ s <> []
    /\ startswith s LBRACKET = false /\ startswith s RBRACKET = false
    /\ (forall c u, s = c :: u -> isspace c = false)
    /\ (forall u c, s = u ++ [c] -> isspace c = false)
    /\ ~ In LF s.

(** ** The cleaning in the words of the specification *)

Definition is_quote_dash : char -> bool := mem [QUOTE; DASH].

(** A line stripped of surrounding whitespace and of leading and trailing
    quote and dash characters: all of them, at both ends. *)
Definition spec_clean_line (line : str) : str :=
  strip_by (fun c => isspace c || is_quote_dash c) line.

(** The line recovery in the words of the specification, with that
    cleaning. *)
Definition claimed_split_recovery (raw : str) : list pyval :=
  List.map VStr
    (take 3 (List.filter spec_keep_line
               (List.map spec_clean_line (split LF raw)))).

(** What comes after the whitespace, the quotes and dashes, and the
    whitespace at the start of a line is not a quote or a dash. *)
Definition one_run_left (line : str) : bool :=
  match lstrip_by isspace (lstrip_by is_quote_dash (lstrip_by isspace line)) with
  | c :: _ => negb (is_quote_dash c)
  | [] => true
  end.

(** The same at both ends of the line: the quotes and dashes at an end are
    one run, with no whitespace between them. *)
Definition one_run (line : str) : bool :=
  one_run_left line && one_run_left (rev line).

(** Two dashed, quoted lines; and a line that starts with a bracket, a
    quoted line and a dashed line. *)
Definition dash_quote_text : str :=
  lit "- " ++ quoted (lit "A") ++ [LF] ++ lit "- " ++ quoted (lit "B").

Definition recovery_text : str :=
  lit "[abc" ++ [LF] ++ quoted (lit "foo") ++ [LF] ++ lit "- bar".

(** * Properties *)

(** ** Strings *)

Section StripSplit.

Variable p : char -> bool.

Lemma lstrip_by_cons_true c s : p c = true -> lstrip_by p (c :: s) = lstrip_by p s.
Proof. intros H. simpl. now rewrite H. Qed.

Lemma strip_by_cons_true c s : p c = true -> strip_by p (c :: s) = strip_by p s.
Proof. intros H. unfold strip_by. now rewrite lstrip_by_cons_true. Qed.

Lemma rstrip_by_snoc_true c s :
  p c = true -> rstrip_by p (s ++ [c]) = rstrip_by p s.
Proof.
  intros H. unfold rstrip_by. rewrite rev_unit. now rewrite lstrip_by_cons_true.
Qed.

Lemma rstrip_by_snoc_false c s :
  p c = false -> rstrip_by p (s ++ [c]) = s ++ [c].
Proof.
  intros H. unfold rstrip_by. rewrite rev_unit. simpl. rewrite H.
  simpl. now rewrite rev_involutive.
Qed.

Lemma lstrip_by_app s t :
  lstrip_by p s <> [] -> lstrip_by p (s ++ t) = lstrip_by p s ++ t.
Proof.
  induction s as [|c s IH]; simpl; [congruence|].
  destruct (p c); [exact IH | reflexivity].
Qed.

Lemma lstrip_by_snoc_nil s c :
  lstrip_by p s = [] -> p c = true -> lstrip_by p (s ++ [c]) = [].
Proof.
  intros Hs Hc. induction s as [|a s IH]; simpl in *.
  - now rewrite Hc.
  - destruct (p a); [auto | discriminate].
Qed.

Lemma strip_by_snoc_true c s : p c = true -> strip_by p (s ++ [c]) = strip_by p s.
Proof.
  intros H. unfold strip_by. destruct (lstrip_by p s) as [|a u] eqn:E.
  - now rewrite lstrip_by_snoc_nil.
  - rewrite lstrip_by_app, E by (rewrite E; discriminate).
    now apply rstrip_by_snoc_true.
Qed.

End StripSplit.

Section Split.

Variable sep : char.

Lemma split_nil : split sep [] = [[]].
Proof. reflexivity. Qed.

Lemma split_cons c s :
  split sep (c :: s) = if c =? sep then [] :: split sep s else push c (split sep s).
Proof.
  unfold split. simpl. destruct (split_pieces sep s) as [piece pieces].
  now destruct (c =? sep).
Qed.

Lemma split_last s : exists pieces piece, split sep s = pieces ++ [piece].
Proof.
  induction s as [|c s (pieces & piece & IH)].
  - now exists [], [].
  - rewrite split_cons, IH. destruct (c =? sep).
    + now exists ([] :: pieces), piece.
    + destruct pieces as [|q pieces]; simpl.
      * now exists [], (c :: piece).
      * now exists ((c :: q) :: pieces), piece.
Qed.

Lemma split_snoc_sep s : split sep (s ++ [sep]) = split sep s ++ [[]].
Proof.
  induction s as [|c s IH]; simpl.
  - rewrite split_cons, N.eqb_refl. reflexivity.
  - rewrite !split_cons, IH. destruct (c =? sep); [reflexivity|].
    destruct (split_last s) as (ps & pc & ->). now destruct ps.
Qed.

Lemma split_snoc_other s :
  exists pieces piece,
    split sep s = pieces ++ [piece] /\
    forall c, c <> sep -> split sep (s ++ [c]) = pieces ++ [piece ++ [c]].
Proof.
  induction s as [|a s (ps & pc & E & H)].
  - exists [], []. split; [reflexivity|]. intros c Hc. simpl.
    now rewrite split_cons, (proj2 (N.eqb_neq _ _) Hc).
  - rewrite split_cons. destruct (a =? sep) eqn:Ea.
    + exists ([] :: ps), pc. split; [now rewrite E|].
      intros c Hc. simpl. now rewrite split_cons, Ea, (H c Hc).
    + destruct ps as [|q ps].
      * exists [], (a :: pc). split; [now rewrite E|].
        intros c Hc. simpl. now rewrite split_cons, Ea, (H c Hc).
      * exists ((a :: q) :: ps), pc. split; [now rewrite E|].
        intros c Hc. simpl. now rewrite split_cons, Ea, (H c Hc).
Qed.

End Split.

(** ** Cleaned lines *)

Lemma isspace_LF : isspace LF = true.
Proof. reflexivity. Qed.

Lemma clean_line_nil : clean_line [] = [].
Proof. reflexivity. Qed.

Lemma clean_line_cons_space c line :
  isspace c = true -> clean_line (c :: line) = clean_line line.
Proof. intros H. unfold clean_line, strip. now rewrite strip_by_cons_true. Qed.

Lemma clean_line_snoc_space c line :
  isspace c = true -> clean_line (line ++ [c]) = clean_line line.
Proof. intros H. unfold clean_line, strip. now rewrite strip_by_snoc_true. Qed.

Section CleanedLines.

Variable keep : str -> bool.
Hypothesis keep_nil : keep [] = false.

Lemma cleaned_lines_cons_space c text :
  isspace c = true -> cleaned_lines keep (c :: text) = cleaned_lines keep text.
Proof.
  intros H. unfold cleaned_lines. rewrite split_cons.
  destruct (c =? LF).
  - simpl. now rewrite clean_line_nil, keep_nil.
  - destruct (split_last LF text) as (ps & pc & ->).
    destruct ps; simpl; now rewrite clean_line_cons_space.
Qed.

Lemma cleaned_lines_snoc_space c text :
  isspace c = true -> cleaned_lines keep (text ++ [c]) = cleaned_lines keep text.
Proof.
  intros H. unfold cleaned_lines.
  destruct (N.eq_dec c LF) as [->|Hc].
  - rewrite split_snoc_sep, List.map_app, List.filter_app. simpl.
    now rewrite clean_line_nil, keep_nil, app_nil_r.
  - destruct (split_snoc_other LF text) as (ps & pc & -> & ->); [|exact Hc].
    rewrite !List.map_app, !List.filter_app. simpl.
    now rewrite clean_line_snoc_space.
Qed.

Lemma cleaned_lines_lstrip text :
  cleaned_lines keep (lstrip_by isspace text) = cleaned_lines keep text.
Proof.
  induction text as [|c text IH]; [reflexivity|]. simpl.
  destruct (isspace c) eqn:E; [|reflexivity].
  now rewrite IH, cleaned_lines_cons_space.
Qed.

Lemma cleaned_lines_rstrip text :
  cleaned_lines keep (rstrip_by isspace text) = cleaned_lines keep text.
Proof.
  induction text as [|c text IH] using rev_ind; [reflexivity|].
  destruct (isspace c) eqn:E.
  - now rewrite rstrip_by_snoc_true, IH, cleaned_lines_snoc_space.
  - now rewrite rstrip_by_snoc_false.
Qed.

(** Splitting the stripped text or the text itself gives the same kept
    lines: the lines that stripping removes or shortens clean to the same
    strings or to the empty one. *)
Lemma cleaned_lines_strip text :
  cleaned_lines keep (strip text) = cleaned_lines keep text.
Proof.
  unfold strip, strip_by. now rewrite cleaned_lines_rstrip, cleaned_lines_lstrip.
Qed.

End CleanedLines.

Lemma keep_line_nil : keep_line [] = false.
Proof. reflexivity. Qed.

(** The loop of the recovery handler is a filter over the cleaned lines. *)
Lemma recovery_loop lines acc :
  fold_left
    (fun suggestions line =>
       let cleaned := clean_line line in
       if keep_line cleaned then suggestions ++ [VStr cleaned] else suggestions)
    lines acc
  = acc ++ List.map VStr (List.filter keep_line (List.map clean_line lines)).
Proof.
  revert acc. induction lines as [|line lines IH]; intros acc; simpl.
  - now rewrite app_nil_r.
  - rewrite IH. destruct (keep_line (clean_line line)); simpl; [|reflexivity].
    now rewrite <- app_assoc.
Qed.

Lemma split_recovery_stripped response :
  split_recovery response
  = List.map VStr (take 3 (cleaned_lines keep_line (strip response))).
Proof.
  unfold split_recovery, slice_first. rewrite recovery_loop. simpl.
  unfold cleaned_lines. now rewrite firstn_map.
Qed.

Lemma split_recovery_raw response :
  split_recovery response
  = List.map VStr (take 3 (cleaned_lines keep_line response)).
Proof.
  rewrite split_recovery_stripped.
  now rewrite (cleaned_lines_strip keep_line keep_line_nil).
Qed.

Lemma length_split_recovery response : (length (split_recovery response) <= 3)%nat.
Proof.
  rewrite split_recovery_raw, length_map, length_take. lia.
Qed.

(** ** The generator *)

Lemma length_fallback_suggestions : length fallback_suggestions = 3%nat.
Proof. reflexivity. Qed.

(** The handlers return at most three items whenever they return. *)
Lemma except_clauses_length e response suggestions :
  except_clauses e response = Return suggestions ->
  (length suggestions <= 3)%nat.
Proof.
  unfold except_clauses.
  destruct (is_JSONDecodeError e); [destruct response as [r|]|destruct (is_Exception e)];
    intros [= <-]; [apply length_split_recovery | reflexivity].
Qed.

(** What leaves the handlers as an exception. *)
Lemma except_clauses_raise e response e' :
  except_clauses e response = Raise e' ->
  (e = JSONDecodeError /\ response = None /\ e' = UnboundLocalError (lit "response"))
  \/ (is_Exception e = false /\ e' = e).
Proof.
  unfold except_clauses. destruct e; simpl; try discriminate.
  - destruct response; [discriminate|]. intros [= <-]. now left.
  - intros [= <-]. now right.
Qed.

(** A kept line is in particular not empty. *)
Lemma filter_keep_truthy lines :
  List.filter keep_line lines = List.filter keep_line (List.filter truthy lines).
Proof.
  induction lines as [|line lines IH]; [reflexivity|]. simpl.
  destruct line as [|c line]; simpl; [exact IH|].
  destruct (keep_line (c :: line)); now rewrite IH.
Qed.

Lemma keep_line_no_bracket s :
  truthy s = true -> no_bracket s = true -> keep_line s = true.
Proof.
  destruct s as [|c s]; [discriminate|]. intros _. unfold no_bracket, keep_line.
  simpl. now destruct (c =? LBRACKET), (c =? RBRACKET).
Qed.

(** Stripping keeps a part of the string, so it brings no bracket in. *)
Lemma forallb_lstrip_by f q s :
  forallb f s = true -> forallb f (lstrip_by q s) = true.
Proof.
  induction s as [|c s IH]; [easy|]. intros H. simpl.
  destruct (q c); [|exact H]. simpl in H. apply andb_true_iff in H. tauto.
Qed.

Lemma forallb_rev f (s : str) : forallb f (rev s) = forallb f s.
Proof.
  induction s as [|c s IH]; [reflexivity|]. simpl.
  rewrite forallb_app, IH. simpl. rewrite andb_true_r. apply andb_comm.
Qed.

Lemma forallb_strip_by f q s :
  forallb f s = true -> forallb f (strip_by q s) = true.
Proof.
  intros H. unfold strip_by, rstrip_by. rewrite forallb_rev.
  apply forallb_lstrip_by. rewrite forallb_rev. now apply forallb_lstrip_by.
Qed.

Lemma no_bracket_clean_line line :
  no_bracket line = true -> no_bracket (clean_line line) = true.
Proof.
  intros H. unfold no_bracket, clean_line, strip, strip_chars.
  now do 3 apply forallb_strip_by.
Qed.

(** Two lines survive the cleaning and hold no bracket: both are kept. *)
Lemma split_recovery_two_lines response first second :
  cleaned_lines truthy response = [first; second] ->
  no_bracket first = true -> no_bracket second = true ->
  split_recovery response = [VStr first; VStr second].
Proof.
  intros Hl H1 H2. rewrite split_recovery_raw.
  assert (Ht : Forall (fun s => truthy s = true) [first; second]).
  { rewrite <- Hl. apply Forall_forall. intros s Hs.
    apply list_elem_of_In, filter_In in Hs. tauto. }
  inversion Ht as [|? ? T1 Ht' ]; subst. inversion Ht' as [|? ? T2 _]; subst.
  unfold cleaned_lines in *. rewrite filter_keep_truthy, Hl. simpl.
  now rewrite !keep_line_no_bracket.
Qed.

Section EngineProperties.

Context {backend : Type}.
Variable run : str -> str -> str -> backend -> outcome str * backend.
Variable json_loads : str -> outcome pyval.
Implicit Types (h t p : str) (b : backend).

Local Abbreviation generate := (generate_suggestions run json_loads).
Local Abbreviation suggest := (get_contextual_suggestions run json_loads).

(** The generator runs the chain once and leaves the backend as that run
    left it. *)
Lemma generate_backend h t p b : (generate h t p b).2 = (run h t p b).2.
Proof.
  unfold generate_suggestions, try_body.
  destruct (run h t p b) as [[response|e] b']; [|reflexivity].
  destruct (json_loads (strip response)) as [[]|]; reflexivity.
Qed.

(** The backend raises: the handlers run with [response] unbound. *)
Lemma generate_run_raises h t p b e :
  (run h t p b).1 = Raise e ->
  (generate h t p b).1 = except_clauses e None.
Proof.
  unfold generate_suggestions, try_body.
  destruct (run h t p b) as [[response|e'] b']; simpl; [discriminate|].
  now intros [= ->].
Qed.

(** The backend returns a text: the decoder decides. *)
Lemma generate_run_returns h t p b response :
  (run h t p b).1 = Return response ->
  (generate h t p b).1 =
  match json_loads (strip response) with
  | Return (VList items) => Return (take 3 items)
  | Return _ => Return [VStr response]
  | Raise e => except_clauses e (Some response)
  end.
Proof.
  unfold generate_suggestions, try_body.
  destruct (run h t p b) as [[response'|e'] b']; simpl; [|discriminate].
  intros [= ->].
  destruct (json_loads (strip response)) as [[]|]; reflexivity.
Qed.

Lemma generate_length h t p b suggestions :
  (generate h t p b).1 = Return suggestions -> (length suggestions <= 3)%nat.
Proof.
  destruct (run h t p b).1 as [response|e] eqn:E.
  - rewrite (generate_run_returns _ _ _ _ _ E).
    destruct (json_loads (strip response)) as [v|e].
    + destruct v; intros [= <-]; try (simpl; lia).
      rewrite length_take. lia.
    + apply except_clauses_length.
  - rewrite (generate_run_raises _ _ _ _ _ E). apply except_clauses_length.
Qed.

(** The generator raises in two cases only: the run of the chain itself
    raised [JSONDecodeError], and the handler of that class read the
    unbound [response]; or an exception outside [Exception] came from the
    chain or from the decoder and no handler caught it. *)
Lemma generate_raises h t p b e :
  (generate h t p b).1 = Raise e ->
  ((run h t p b).1 = Raise JSONDecodeError
   /\ e = UnboundLocalError (lit "response"))
  \/ is_Exception e = false.
Proof.
  destruct (run h t p b).1 as [response|e0] eqn:E.
  - rewrite (generate_run_returns _ _ _ _ _ E).
    destruct (json_loads (strip response)) as [v|e1].
    + destruct v; discriminate.
    + intros H. apply except_clauses_raise in H as [(_ & ? & _)|[? ->]];
        [discriminate | now right].
  - rewrite (generate_run_raises _ _ _ _ _ E).
    intros H. apply except_clauses_raise in H as [(-> & _ & ->)|[? ->]];
      [now left | now right].
Qed.

(** An exception of the backend that is an [Exception] and not a
    [JSONDecodeError] ends in the hard-coded list. *)
Lemma generate_run_exception h t p b e :
  (run h t p b).1 = Raise e ->
  is_Exception e = true -> is_JSONDecodeError e = false ->
  (generate h t p b).1 = Return fallback_suggestions.
Proof.
  intros E He Hj. rewrite (generate_run_raises _ _ _ _ _ E).
  unfold except_clauses. now rewrite Hj, He.
Qed.

(** The decoder fails on the text of the backend: line recovery. *)
Lemma generate_decode_error h t p b response :
  (run h t p b).1 = Return response ->
  json_loads (strip response) = Raise JSONDecodeError ->
  (generate h t p b).1 = Return (split_recovery response).
Proof.
  intros E Hj. now rewrite (generate_run_returns _ _ _ _ _ E), Hj.
Qed.

Lemma suggest_generate msgs topic interests b :
  suggest msgs topic interests b
  = generate (format_history msgs) (format_context topic)
      (format_preferences interests) b.
Proof. reflexivity. Qed.

(** C1. For every list of messages, topic and interests, and whatever the
    backend and the decoder do, a list returned by
    [get_contextual_suggestions] has at most 3 elements: this holds on the
    successful parse, on the line recovery and on the hard-coded list. The
    call leaves by an exception only when the run of the chain itself
    raised [JSONDecodeError], or for an exception outside [Exception]. *)
Theorem get_contextual_suggestions_at_most_three msgs topic interests b :
  match (suggest msgs topic interests b).1 with
  | Return suggestions => (length suggestions <= 3)%nat
  | Raise e =>
      ((run (format_history msgs) (format_context topic)
          (format_preferences interests) b).1 = Raise JSONDecodeError
       /\ e = UnboundLocalError (lit "response"))
      \/ is_Exception e = false
  end.
Proof.
  rewrite suggest_generate.
  destruct (generate _ _ _ b).1 as [suggestions|e] eqn:E.
  - exact (generate_length _ _ _ _ _ E).
  - exact (generate_raises _ _ _ _ _ E).
Qed.

(** C4. When the backend returns a text whose stripped form decodes to a
    JSON array of 5 strings, [generate_suggestions] returns the first 3 of
    them, in their order. *)
Theorem generate_suggestions_first_three_of_five h t p b response strings :
  (run h t p b).1 = Return response ->
  json_loads (strip response) = Return (VList (List.map VStr strings)) ->
  length strings = 5%nat ->
  (generate h t p b).1 = Return (List.map VStr (take 3 strings)).
Proof.
  intros E Hj _. rewrite (generate_run_returns _ _ _ _ _ E), Hj.
  now rewrite firstn_map.
Qed.

(** The line recovery in the operations of the code. When the decoder fails
    on the text of the backend, [generate_suggestions] returns the first at most 3 of the kept lines:
    the text is split at line feeds (splitting the stripped text, as the
    code does, keeps the same lines), each line is stripped of whitespace,
    then of quotes and dashes at both ends, then of whitespace again, and a
    cleaned line is kept exactly when it is not empty and does not start
    with an opening or closing bracket. *)
Theorem generate_suggestions_line_recovery h t p b response :
  (run h t p b).1 = Return response ->
  json_loads (strip response) = Raise JSONDecodeError ->
  (generate h t p b).1
  = Return (List.map VStr (take 3 (cleaned_lines keep_line (strip response))))
  /\ cleaned_lines keep_line (strip response) = cleaned_lines keep_line response
  /\ (forall cleaned,
        keep_line cleaned = true <->
        cleaned <> [] /\ startswith cleaned LBRACKET = false
        /\ startswith cleaned RBRACKET = false).
Proof.
  intros E Hj. rewrite (generate_decode_error _ _ _ _ _ E Hj).
  split; [|split].
  - now rewrite split_recovery_stripped.
  - apply cleaned_lines_strip, keep_line_nil.
  - intros cleaned. unfold keep_line.
    rewrite !andb_true_iff, !negb_true_iff.
    destruct cleaned; simpl; intuition congruence.
Qed.

(** Two kept lines, with the cleaning of the code. When the backend returns
    a text on which the decoder fails, whose lines that are not empty after
    [clean_line] are exactly two, and these contain no bracket,
    [generate_suggestions] returns these two cleaned lines, in order. *)
Theorem generate_suggestions_two_lines h t p b response first second :
  (run h t p b).1 = Return response ->
  json_loads (strip response) = Raise JSONDecodeError ->
  List.filter truthy (List.map clean_line (split LF response)) = [first; second] ->
  no_bracket first = true -> no_bracket second = true ->
  (generate h t p b).1 = Return [VStr first; VStr second].
Proof.
  intros E Hj Hl H1 H2.
  rewrite (generate_decode_error _ _ _ _ _ E Hj). f_equal.
  now apply split_recovery_two_lines.
Qed.

(** The same for a text of exactly two lines, neither of which holds a
    bracket nor cleans to the empty string. *)
Lemma generate_two_raw_lines h t p b response line1 line2 :
  (run h t p b).1 = Return response ->
  json_loads (strip response) = Raise JSONDecodeError ->
  split LF response = [line1; line2] ->
  clean_line line1 <> [] -> clean_line line2 <> [] ->
  no_bracket line1 = true -> no_bracket line2 = true ->
  (generate h t p b).1 = Return [VStr (clean_line line1); VStr (clean_line line2)].
Proof.
  intros E Hj Hs N1 N2 B1 B2.
  rewrite (generate_decode_error _ _ _ _ _ E Hj). f_equal.
  apply split_recovery_two_lines; auto using no_bracket_clean_line.
  unfold cleaned_lines. rewrite Hs. simpl.
  destruct (clean_line line1); [congruence|].
  destruct (clean_line line2); [congruence|]. reflexivity.
Qed.

(** C2 (the code departs from the claim). When the run of the chain raises
    [json.JSONDecodeError], the first handler takes it and reads the local
    [response], which the failed call never bound: [generate_suggestions]
    leaves with [UnboundLocalError] instead of returning the hard-coded
    list. *)
Theorem generate_suggestions_backend_decode_error h t p b :
  (run h t p b).1 = Raise JSONDecodeError ->
  (generate h t p b).1 = Raise (UnboundLocalError (lit "response"))
  /\ (generate h t p b).1 <> Return fallback_suggestions.
Proof.
  intros E. rewrite (generate_run_raises _ _ _ _ _ E). simpl.
  split; [reflexivity | discriminate].
Qed.

(** C3 (the code departs from the claim). For every list of messages, topic
    and interests, a backend whose run raises [json.JSONDecodeError] makes
    [get_contextual_suggestions] raise [UnboundLocalError] to its caller. *)
Theorem get_contextual_suggestions_raises msgs topic interests b :
  (run (format_history msgs) (format_context topic)
     (format_preferences interests) b).1 = Raise JSONDecodeError ->
  (suggest msgs topic interests b).1 = Raise (UnboundLocalError (lit "response")).
Proof.
  intros E. rewrite suggest_generate.
  now rewrite (generate_run_raises _ _ _ _ _ E).
Qed.

End EngineProperties.

(** Apart from that case and from exceptions outside [Exception], the call
    returns: every text of the backend and every other exception of it ends
    in a list. *)
Lemma get_contextual_suggestions_returns {backend}
    (run : str -> str -> str -> backend -> outcome str * backend)
    json_loads msgs topic interests b :
  (forall e, (run (format_history msgs) (format_context topic)
                (format_preferences interests) b).1 = Raise e ->
             is_Exception e = true /\ is_JSONDecodeError e = false) ->
  (forall text e, json_loads text = Raise e -> is_Exception e = true) ->
  exists suggestions,
    (get_contextual_suggestions run json_loads msgs topic interests b).1
    = Return suggestions.
Proof.
  intros Hrun Hjson.
  destruct (get_contextual_suggestions _ _ _ _ _ _).1 as [l|e] eqn:E; [now exists l|].
  exfalso. rewrite suggest_generate in E.
  destruct (run (format_history msgs) (format_context topic)
              (format_preferences interests) b).1 as [response|e0] eqn:R.
  - rewrite (generate_run_returns _ _ _ _ _ _ _ R) in E.
    destruct (json_loads (strip response)) as [[]|e1] eqn:J; try discriminate.
    apply except_clauses_raise in E as [(_ & ? & _)|[? ->]]; [discriminate|].
    apply Hjson in J. congruence.
  - rewrite (generate_run_raises _ _ _ _ _ _ _ R) in E.
    destruct (Hrun e0 eq_refl) as [He0 Hj0].
    unfold except_clauses in E. rewrite Hj0, He0 in E. discriminate.
Qed.

(** ** Concrete runs of the generator *)

(** C4, at the text [ ["A", "B", "C", "D", "E"] ] between a space and a line
    feed. *)
Lemma generate_suggestions_first_three_of_five_witness :
  (fixed_run (Return five_text) [] [] [] tt).1 = Return five_text
  /\ JsonRef.loads (strip five_text) = Return (VList (List.map VStr five_letters))
  /\ length five_letters = 5%nat
  /\ (generate_suggestions (fixed_run (Return five_text)) JsonRef.loads [] [] [] tt).1
     = Return [VStr (lit "A"); VStr (lit "B"); VStr (lit "C")].
Proof.
  assert (J : JsonRef.loads (strip five_text)
              = Return (VList (List.map VStr five_letters)))
    by (vm_compute; reflexivity).
  split; [reflexivity|]. split; [exact J|]. split; [reflexivity|].
  exact (generate_suggestions_first_three_of_five
           (fixed_run (Return five_text)) JsonRef.loads [] [] [] tt
           five_text five_letters eq_refl J eq_refl).
Defined.

(** A line that starts with a bracket: on the text of the two lines [[abc]
    and [foo] the decoder fails, the specification keeps both lines (the first is not
    exactly one bracket), and the code drops the first. *)
Lemma line_recovery_drops_bracket_prefix :
  JsonRef.loads (strip bracket_line_text) = Raise JSONDecodeError
  /\ spec_split_recovery bracket_line_text = [VStr (lit "[abc"); VStr (lit "foo")]
  /\ (generate_suggestions (fixed_run (Return bracket_line_text)) JsonRef.loads
        [] [] [] tt).1 = Return [VStr (lit "foo")]
  /\ (generate_suggestions (fixed_run (Return bracket_line_text)) JsonRef.loads
        [] [] [] tt).1 <> Return (spec_split_recovery bracket_line_text).
Proof.
  split; [vm_compute; reflexivity|]. split; [vm_compute; reflexivity|].
  split; [vm_compute; reflexivity|]. vm_compute. discriminate.
Qed.

(** The line recovery at the same text: only [foo] is kept. *)
Lemma generate_suggestions_line_recovery_witness :
  (fixed_run (Return bracket_line_text) [] [] [] tt).1 = Return bracket_line_text
  /\ JsonRef.loads (strip bracket_line_text) = Raise JSONDecodeError
  /\ (generate_suggestions (fixed_run (Return bracket_line_text)) JsonRef.loads
        [] [] [] tt).1
     = Return (List.map VStr
                 (take 3 (cleaned_lines keep_line (strip bracket_line_text))))
  /\ cleaned_lines keep_line (strip bracket_line_text) = [lit "foo"].
Proof.
  assert (J : JsonRef.loads (strip bracket_line_text) = Raise JSONDecodeError)
    by (vm_compute; reflexivity).
  destruct (generate_suggestions_line_recovery
              (fixed_run (Return bracket_line_text)) JsonRef.loads [] [] [] tt
              bracket_line_text eq_refl J) as (H & _ & _).
  split; [reflexivity|]. split; [exact J|]. split; [exact H|].
  vm_compute. reflexivity.
Defined.

(** Two kept lines, at a quoted line, an empty line and a dashed line. *)
Lemma generate_suggestions_two_lines_witness :
  (fixed_run (Return two_line_text) [] [] [] tt).1 = Return two_line_text
  /\ JsonRef.loads (strip two_line_text) = Raise JSONDecodeError
  /\ List.filter truthy (List.map clean_line (split LF two_line_text))
     = [lit "Tell me more"; lit "Why so?"]
  /\ no_bracket (lit "Tell me more") = true
  /\ no_bracket (lit "Why so?") = true
  /\ (generate_suggestions (fixed_run (Return two_line_text)) JsonRef.loads
        [] [] [] tt).1
     = Return [VStr (lit "Tell me more"); VStr (lit "Why so?")].
Proof.
  assert (J : JsonRef.loads (strip two_line_text) = Raise JSONDecodeError)
    by (vm_compute; reflexivity).
  assert (L : List.filter truthy (List.map clean_line (split LF two_line_text))
              = [lit "Tell me more"; lit "Why so?"])
    by (vm_compute; reflexivity).
  split; [reflexivity|]. split; [exact J|]. split; [exact L|].
  split; [reflexivity|]. split; [reflexivity|].
  exact (generate_suggestions_two_lines
           (fixed_run (Return two_line_text)) JsonRef.loads [] [] [] tt
           two_line_text _ _ eq_refl J L eq_refl eq_refl).
Defined.

(** C2, at a backend whose run raises [json.JSONDecodeError]. *)
Lemma generate_suggestions_backend_decode_error_witness :
  (fixed_run (Raise JSONDecodeError) [] [] [] tt).1 = Raise JSONDecodeError
  /\ (generate_suggestions (fixed_run (Raise JSONDecodeError)) JsonRef.loads
        [] [] [] tt).1 = Raise (UnboundLocalError (lit "response"))
  /\ (generate_suggestions (fixed_run (Raise JSONDecodeError)) JsonRef.loads
        [] [] [] tt).1 <> Return fallback_suggestions.
Proof.
  split; [reflexivity|].
  exact (generate_suggestions_backend_decode_error
           (fixed_run (Raise JSONDecodeError)) JsonRef.loads [] [] [] tt eq_refl).
Defined.

(** C3, at the two messages of the scenario, without topic or interests. *)
Lemma get_contextual_suggestions_raises_witness :
  (fixed_run (Raise JSONDecodeError) (format_history hi_hello) (format_context [])
     (format_preferences None) tt).1 = Raise JSONDecodeError
  /\ (get_contextual_suggestions (fixed_run (Raise JSONDecodeError)) JsonRef.loads
        hi_hello [] None tt).1 = Raise (UnboundLocalError (lit "response")).
Proof.
  split; [reflexivity|].
  exact (get_contextual_suggestions_raises
           (fixed_run (Raise JSONDecodeError)) JsonRef.loads hi_hello [] None tt
           eq_refl).
Defined.

(** The scenario of the specification: the backend answers with an array of
    three strings. *)
Example scenario_three_strings :
  (get_contextual_suggestions
     (fixed_run (Return (json_array_text [lit "A"; lit "B"; lit "C"])))
     JsonRef.loads hi_hello [] None tt).1
  = Return [VStr (lit "A"); VStr (lit "B"); VStr (lit "C")].
Proof. vm_compute. reflexivity. Qed.

(** A text that decodes to something else than a list comes back whole. *)
Example scenario_not_a_list :
  (generate_suggestions (fixed_run (Return (lit " 42 "))) JsonRef.loads [] [] [] tt).1
  = Return [VStr (lit " 42 ")].
Proof. vm_compute. reflexivity. Qed.

(** The elements of a decoded list are not checked to be strings. *)
Example scenario_list_of_numbers :
  (generate_suggestions (fixed_run (Return (lit "[1, 2, 3, 4]"))) JsonRef.loads
     [] [] [] tt).1
  = Return [VNum (lit "1"); VNum (lit "2"); VNum (lit "3")].
Proof. vm_compute. reflexivity. Qed.

(** Any other exception of the backend ends in the hard-coded list. *)
Example scenario_connection_error :
  (generate_suggestions (fixed_run (Raise (OtherException (lit "ConnectionError"))))
     JsonRef.loads [] [] [] tt).1
  = Return fallback_suggestions.
Proof. reflexivity. Qed.

(** ** The prompt texts *)

(** The history loop is the concatenation of the rendered messages. *)
Lemma history_loop (msgs : list message) (acc : str) :
  fold_left (fun history msg => history ++ render_message msg) msgs acc
  = acc ++ concat (List.map render_message msgs).
Proof.
  revert acc. induction msgs as [|msg msgs IH]; intros acc; simpl.
  - now rewrite app_nil_r.
  - now rewrite IH, app_assoc.
Qed.

Lemma format_history_concat (msgs : list message) :
  format_history msgs = concat (List.map render_message (slice_last 5 msgs)).
Proof. unfold format_history. now rewrite history_loop. Qed.

(** [l[-n:]] is the end of [l], of length [min n (len l)]. *)
Lemma slice_last_spec {A} (n : nat) (l : list A) :
  exists older,
    l = older ++ slice_last n l /\ length (slice_last n l) = Nat.min n (length l).
Proof.
  exists (take (length l - n) l). unfold slice_last. split.
  - now rewrite take_drop.
  - rewrite length_drop. lia.
Qed.

Lemma render_message_full (msg : message) role content :
  msg !! lit "role" = Some role -> msg !! lit "content" = Some content ->
  render_message msg = role ++ lit ": " ++ content ++ [LF].
Proof. intros Hr Hc. unfold render_message. now rewrite Hr, Hc. Qed.

Lemma recording_run_state {backend}
    (run : str -> str -> str -> backend -> outcome str * backend) h t p b log :
  (recording_run run h t p (b, log)).2 = ((run h t p b).2, log ++ [(h, t, p)]).
Proof. unfold recording_run. now destruct (run h t p b). Qed.

Lemma join_cons (sep x : str) (rest : list str) :
  join sep (x :: rest) = x ++ concat (List.map (fun i => sep ++ i) rest).
Proof.
  revert x. induction rest as [|y rest IH]; intros x.
  - simpl. now rewrite app_nil_r.
  - change (join sep (x :: y :: rest)) with (x ++ sep ++ join sep (y :: rest)).
    rewrite IH. simpl. now rewrite <- app_assoc.
Qed.

(** C7. The topic text is [Current topic: ] followed by the topic when the
    topic is not empty, and [General conversation] when it is; the
    preferences text is [User is interested in: ] followed by the first
    interest and then, for each further interest in order, a comma, a space
    and that interest, when the list is not empty (for music and chess:
    [User is interested in: music, chess]), and the empty text when the list
    is empty or absent. Building the texts cannot fail: whatever the
    messages, the topic and the interests are, the call reaches the backend
    with exactly these three texts, and is the generator applied to them. *)
Theorem prompt_topic_and_preferences :
  (forall c topic,
      format_context (c :: topic) = lit "Current topic: " ++ c :: topic)
  /\ format_context [] = lit "General conversation"
  /\ (forall interest interests,
        format_preferences (Some (interest :: interests))
        = lit "User is interested in: " ++ interest
          ++ concat (List.map (fun i => lit ", " ++ i) interests))
  /\ format_preferences (Some [lit "music"; lit "chess"])
     = lit "User is interested in: music, chess"
  /\ format_preferences (Some [lit "music"]) = lit "User is interested in: music"
  /\ format_preferences (Some []) = []
  /\ format_preferences None = []
  /\ (forall (backend : Type) run json_loads msgs topic interests (b : backend) log,
        (get_contextual_suggestions (recording_run run) json_loads msgs topic
           interests (b, log)).2.2
        = log ++ [(format_history msgs, format_context topic,
                   format_preferences interests)])
  /\ (forall (backend : Type) run json_loads msgs topic interests (b : backend),
        get_contextual_suggestions run json_loads msgs topic interests b
        = generate_suggestions run json_loads (format_history msgs)
            (format_context topic) (format_preferences interests) b).
Proof.
  split; [reflexivity|]. split; [reflexivity|]. split.
  { intros interest interests. unfold format_preferences.
    now rewrite join_cons. }
  split; [vm_compute; reflexivity|]. split; [vm_compute; reflexivity|].
  split; [reflexivity|]. split; [reflexivity|]. split.
  - intros backend run json_loads msgs topic interests b log.
    rewrite suggest_generate, generate_backend, recording_run_state.
    reflexivity.
  - intros. apply suggest_generate.
Qed.

(** C8. The three prompt texts depend on the messages, the topic and the
    interests only: two calls in a row hand the same three texts to the
    backend, whatever the first call did to the state of the backend and
    however it ended; the history text is the concatenation, in order, of one
    line per message over the last [min 5 (len messages)] messages, and the
    line of a message with a role and a content is the role, a colon and a
    space, the content and a line feed. *)
Theorem prompt_formatting_deterministic {backend : Type}
    (run : str -> str -> str -> backend -> outcome str * backend)
    (json_loads : str -> outcome pyval)
    (msgs : list message) (topic : str) (interests : option (list str))
    (b : backend) (log : list (str * str * str)) :
  (get_contextual_suggestions (recording_run run) json_loads msgs topic interests
     (get_contextual_suggestions (recording_run run) json_loads msgs topic
        interests (b, log)).2).2.2
  = log ++ [ (format_history msgs, format_context topic, format_preferences interests);
             (format_history msgs, format_context topic, format_preferences interests) ]
  /\ (exists older window,
        msgs = older ++ window
        /\ length window = Nat.min 5 (length msgs)
        /\ format_history msgs = concat (List.map render_message window))
  /\ (forall (msg : message) role content,
        msg !! lit "role" = Some role -> msg !! lit "content" = Some content ->
        render_message msg = role ++ lit ": " ++ content ++ [LF]).
Proof.
  split; [|split].
  - rewrite !suggest_generate.
    rewrite (generate_backend _ _ _ _ _ (b, log)), recording_run_state.
    rewrite generate_backend, recording_run_state. simpl.
    now rewrite <- app_assoc.
  - destruct (slice_last_spec 5 msgs) as (older & Ho & Hl).
    exists older, (slice_last 5 msgs). auto using format_history_concat.
  - apply render_message_full.
Qed.

(** C8, at the two messages of the scenario, without topic or interests. *)
Lemma prompt_formatting_deterministic_witness :
  (get_contextual_suggestions (recording_run (fixed_run (Return five_text)))
     JsonRef.loads hi_hello [] None
     (get_contextual_suggestions (recording_run (fixed_run (Return five_text)))
        JsonRef.loads hi_hello [] None (tt, [])).2).2.2
  = [ (lit "user: Hi" ++ [LF] ++ lit "assistant: Hello!" ++ [LF],
       lit "General conversation", []);
      (lit "user: Hi" ++ [LF] ++ lit "assistant: Hello!" ++ [LF],
       lit "General conversation", []) ]
  /\ mk_message (lit "user") (lit "Hi") !! lit "role" = Some (lit "user")
  /\ mk_message (lit "user") (lit "Hi") !! lit "content" = Some (lit "Hi")
  /\ render_message (mk_message (lit "user") (lit "Hi")) = lit "user: Hi" ++ [LF].
Proof.
  destruct (prompt_formatting_deterministic (fixed_run (Return five_text))
              JsonRef.loads hi_hello [] None tt []) as (H1 & _ & H3).
  split; [exact H1|]. split; [reflexivity|]. split; [reflexivity|].
  exact (H3 (mk_message (lit "user") (lit "Hi")) (lit "user") (lit "Hi")
           eq_refl eq_refl).
Defined.

(** C10. A message without the key [role] is rendered with the role [user],
    a message without the key [content] with the empty content; the history
    text is defined for every list of dicts, among them the empty dict. *)
Theorem render_message_defaults (msg : message) :
  (msg !! lit "role" = None ->
   render_message msg = lit "user: " ++ default [] (msg !! lit "content") ++ [LF])
  /\ (msg !! lit "content" = None ->
      render_message msg = default (lit "user") (msg !! lit "role") ++ lit ": " ++ [LF])
  /\ (forall msgs : list message,
        format_history msgs = concat (List.map render_message (slice_last 5 msgs)))
  /\ format_history [∅] = lit "user: " ++ [LF].
Proof.
  unfold render_message. split; [|split; [|split]].
  - now intros ->.
  - now intros ->.
  - apply format_history_concat.
  - reflexivity.
Qed.

(** C10, at a message with a content only and one with a role only. *)
Lemma render_message_defaults_witness :
  ({[ lit "content" := lit "Hi" ]} : message) !! lit "role" = None
  /\ render_message {[ lit "content" := lit "Hi" ]} = lit "user: Hi" ++ [LF]
  /\ ({[ lit "role" := lit "assistant" ]} : message) !! lit "content" = None
  /\ render_message {[ lit "role" := lit "assistant" ]} = lit "assistant: " ++ [LF].
Proof.
  split; [reflexivity|]. split.
  - exact (proj1 (render_message_defaults {[ lit "content" := lit "Hi" ]}) eq_refl).
  - split; [reflexivity|].
    exact (proj1 (proj2 (render_message_defaults {[ lit "role" := lit "assistant" ]}))
             eq_refl).
Defined.

Example join_ex :
  format_preferences (Some [lit "music"; lit "chess"])
  = lit "User is interested in: music, chess".
Proof. reflexivity. Qed.

Example format_history_last_five :
  format_history (List.map numbered (seq 0 7))
  = lit "user: 2" ++ [LF] ++ lit "user: 3" ++ [LF] ++ lit "user: 4" ++ [LF]
    ++ lit "user: 5" ++ [LF] ++ lit "user: 6" ++ [LF].
Proof. vm_compute. reflexivity. Qed.

(** ** The history buffer *)

Module ManagerProperties.
Import ConnectionManager.

Lemma slice_last_short {A} (n : nat) (l : list A) :
  (length l <= n)%nat -> slice_last n l = l.
Proof.
  intros H. unfold slice_last.
  now replace (length l - n)%nat with 0%nat by lia.
Qed.

Lemma length_slice_last {A} (n : nat) (l : list A) :
  length (slice_last n l) = Nat.min n (length l).
Proof. unfold slice_last. rewrite length_drop. lia. Qed.

(** The history of the client after the call: the old one with the new
    message at the end, cut to its last 20. *)
Lemma add_message_lookup client_id role content self :
  conversation_histories (add_message_to_history client_id role content self)
    !! client_id
  = Some (slice_last 20 (history_of client_id self ++ [mk_message role content])).
Proof.
  unfold add_message_to_history, history_of, mk_message. simpl.
  destruct (conversation_histories self !! client_id) as [history|] eqn:E; simpl.
  - rewrite lookup_alter_eq, E. simpl.
    destruct (20 <? length (history ++ _))%nat eqn:L.
    + now rewrite lookup_insert_eq.
    + apply Nat.ltb_ge in L. rewrite lookup_alter_eq, E. simpl.
      now rewrite slice_last_short.
  - rewrite lookup_alter_eq, lookup_insert_eq. simpl.
    now rewrite lookup_alter_eq, lookup_insert_eq.
Qed.

(** The histories of the other clients stay as they are. *)
Lemma add_message_lookup_ne client_id other role content self :
  client_id <> other ->
  conversation_histories (add_message_to_history client_id role content self)
    !! other
  = conversation_histories self !! other.
Proof.
  intros Hne. unfold add_message_to_history. simpl.
  set (h1 := match conversation_histories self !! client_id with
             | Some _ => conversation_histories self
             | None => <[client_id:=[]]> (conversation_histories self)
             end).
  assert (H1 : h1 !! other = conversation_histories self !! other).
  { subst h1. destruct (conversation_histories self !! client_id);
      [reflexivity | now rewrite lookup_insert_ne]. }
  destruct (alter _ client_id h1 !! client_id) as [history|];
    [destruct (20 <? length history)%nat|];
    rewrite ?lookup_insert_ne, lookup_alter_ne by exact Hne; exact H1.
Qed.

Lemma add_message_bounded client_id role content self :
  bounded self -> bounded (add_message_to_history client_id role content self).
Proof.
  intros Hb other history.
  destruct (decide (client_id = other)) as [<-|Hne].
  - rewrite add_message_lookup. intros [= <-].
    rewrite length_slice_last. lia.
  - rewrite add_message_lookup_ne by exact Hne. apply Hb.
Qed.

Lemma init_bounded : bounded init.
Proof. intros client_id history. unfold init. simpl. now rewrite lookup_empty. Qed.

Lemma connect_bounded ws client_id self :
  bounded self -> bounded (connect ws client_id self).
Proof.
  intros Hb other history. unfold connect. simpl.
  destruct (decide (client_id = other)) as [<-|Hne].
  - rewrite lookup_insert_eq. intros [= <-]. simpl. lia.
  - rewrite lookup_insert_ne by exact Hne. apply Hb.
Qed.

Lemma disconnect_bounded ws client_id self self' :
  disconnect ws client_id self = Return self' -> bounded self -> bounded self'.
Proof.
  unfold disconnect. destruct (list_remove ws _); [|discriminate].
  intros [= <-] Hb other history. simpl.
  destruct (decide (client_id = other)) as [<-|Hne].
  - now rewrite lookup_delete_eq.
  - rewrite lookup_delete_ne by exact Hne. apply Hb.
Qed.

Lemma step_bounded self self' : step self self' -> bounded self -> bounded self'.
Proof.
  destruct 1; eauto using connect_bounded, disconnect_bounded, add_message_bounded.
Qed.

(** The bound holds in every state the manager reaches from its initial
    one. *)
Lemma reachable_bounded self : rtc step init self -> bounded self.
Proof.
  intros H.
  apply (rtc_ind_r (R:=step) bounded init); [apply init_bounded | | exact H].
  intros s1 s2 _ Hstep Hb. exact (step_bounded s1 s2 Hstep Hb).
Qed.

(** C9. After every call of [add_message_to_history] the history of the
    client has at most 20 messages, and the bound on all histories is kept;
    when the history held 20 messages, the oldest one is dropped and the
    result is the other 19 in their order followed by the new message:
    20 messages. *)
Theorem add_message_to_history_keeps_last_20 client_id role content self :
  (length (history_of client_id
             (add_message_to_history client_id role content self)) <= 20)%nat
  /\ (bounded self ->
      bounded (add_message_to_history client_id role content self))
  /\ (forall oldest rest,
        conversation_histories self !! client_id = Some (oldest :: rest) ->
        length (oldest :: rest) = 20%nat ->
        conversation_histories
          (add_message_to_history client_id role content self) !! client_id
        = Some (rest ++ [mk_message role content])
        /\ length (rest ++ [mk_message role content]) = 20%nat).
Proof.
  split; [|split].
  - unfold history_of at 1. rewrite add_message_lookup. simpl.
    rewrite length_slice_last. lia.
  - apply add_message_bounded.
  - intros oldest rest E L. rewrite add_message_lookup.
    unfold history_of. rewrite E. simpl in *.
    split; [|rewrite length_app; simpl; lia].
    f_equal. unfold slice_last.
    replace (length (oldest :: rest ++ [mk_message role content]) - 20)%nat
      with 1%nat by (simpl; rewrite length_app; simpl; lia).
    reflexivity.
Qed.

(** C9, at a client with the 20 messages 0 to 19: message 0 goes. *)
Lemma add_message_to_history_keeps_last_20_witness :
  bounded full_manager
  /\ conversation_histories full_manager !! lit "test-client"
     = Some (numbered 0 :: List.map numbered (seq 1 19))
  /\ length (numbered 0 :: List.map numbered (seq 1 19)) = 20%nat
  /\ conversation_histories
       (add_message_to_history (lit "test-client") (lit "user") (lit "new")
          full_manager) !! lit "test-client"
     = Some (List.map numbered (seq 1 19) ++ [mk_message (lit "user") (lit "new")])
  /\ bounded (add_message_to_history (lit "test-client") (lit "user") (lit "new")
                full_manager).
Proof.
  assert (B : bounded full_manager).
  { intros client_id history. unfold full_manager. simpl.
    intros [_ <-]%lookup_singleton_Some. simpl. lia. }
  destruct (add_message_to_history_keeps_last_20 (lit "test-client") (lit "user")
              (lit "new") full_manager) as (_ & Hb & Hfull).
  split; [exact B|]. split; [reflexivity|]. split; [reflexivity|].
  split; [|exact (Hb B)].
  exact (proj1 (Hfull (numbered 0) (List.map numbered (seq 1 19)) eq_refl eq_refl)).
Defined.

End ManagerProperties.

(** * Further properties *)

(** ** More on the history buffer *)

Module ManagerExtras.
Import ConnectionManager ManagerProperties.

Lemma manager_eq (s1 s2 : t) :
  active_connections s1 = active_connections s2 ->
  conversation_histories s1 = conversation_histories s2 -> s1 = s2.
Proof. destruct s1, s2. simpl. now intros -> ->. Qed.

Lemma add_message_active client_id role content self :
  active_connections (add_message_to_history client_id role content self)
  = active_connections self.
Proof. reflexivity. Qed.

Lemma history_of_add_ne client_id other role content self :
  client_id <> other ->
  history_of other (add_message_to_history client_id role content self)
  = history_of other self.
Proof.
  intros Hne. unfold history_of. now rewrite add_message_lookup_ne.
Qed.

Lemma history_of_add client_id role content self :
  history_of client_id (add_message_to_history client_id role content self)
  = slice_last 20 (history_of client_id self ++ [mk_message role content]).
Proof. unfold history_of at 1. now rewrite add_message_lookup. Qed.

(** X2. Messages of two different clients can be recorded in either order: the
    manager ends in the same state. *)
Theorem add_message_to_history_commutes c1 r1 m1 c2 r2 m2 self :
  c1 <> c2 ->
  add_message_to_history c1 r1 m1 (add_message_to_history c2 r2 m2 self)
  = add_message_to_history c2 r2 m2 (add_message_to_history c1 r1 m1 self).
Proof.
  intros Hne. apply manager_eq; [reflexivity|].
  apply map_eq. intros k.
  destruct (decide (c1 = k)) as [<-|H1].
  - rewrite add_message_lookup, add_message_lookup_ne, add_message_lookup
      by congruence.
    now rewrite history_of_add_ne by congruence.
  - rewrite add_message_lookup_ne by exact H1.
    destruct (decide (c2 = k)) as [<-|H2].
    + rewrite !add_message_lookup. now rewrite history_of_add_ne by exact H1.
    + now rewrite !add_message_lookup_ne by assumption.
Qed.

Lemma add_message_to_history_commutes_witness :
  lit "a" <> lit "b"
  /\ add_message_to_history (lit "a") (lit "user") (lit "x")
       (add_message_to_history (lit "b") (lit "user") (lit "y") full_manager)
     = add_message_to_history (lit "b") (lit "user") (lit "y")
         (add_message_to_history (lit "a") (lit "user") (lit "x") full_manager).
Proof.
  assert (H : lit "a" <> lit "b") by discriminate.
  split; [exact H|].
  exact (add_message_to_history_commutes (lit "a") (lit "user") (lit "x")
           (lit "b") (lit "user") (lit "y") full_manager H).
Defined.

(** Cutting to the last [n] twice, with more items in between, is cutting
    once. *)
Lemma slice_last_app {A} (n : nat) (l k : list A) :
  slice_last n (slice_last n l ++ k) = slice_last n (l ++ k).
Proof.
  unfold slice_last. rewrite !drop_app, !length_app, !length_drop, drop_drop.
  f_equal; f_equal; lia.
Qed.

Lemma slice_last_le {A} (n m : nat) (l : list A) :
  (n <= m)%nat -> slice_last n (slice_last m l) = slice_last n l.
Proof.
  intros H. unfold slice_last. rewrite length_drop, drop_drop. f_equal. lia.
Qed.

Lemma add_messages_active client_id msgs self :
  active_connections (add_messages client_id msgs self) = active_connections self.
Proof.
  revert self. induction msgs as [|[role content] msgs IH]; intros self;
    [reflexivity|]. simpl. now rewrite IH.
Qed.

Lemma history_of_add_messages client_id role content msgs self :
  history_of client_id (add_messages client_id ((role, content) :: msgs) self)
  = slice_last 20
      (history_of client_id self
       ++ List.map (fun '(role, content) => mk_message role content)
            ((role, content) :: msgs)).
Proof.
  revert role content self.
  induction msgs as [|[role' content'] msgs IH]; intros role content self.
  - apply history_of_add.
  - change (add_messages client_id ((role, content) :: (role', content') :: msgs) self)
      with (add_messages client_id ((role', content') :: msgs)
              (add_message_to_history client_id role content self)).
    rewrite IH, history_of_add, slice_last_app. now rewrite <- app_assoc.
Qed.

(** X3. The history after any number of calls is the last 20 of what it held
    and what the calls added, in order; the list of connections is
    untouched. *)
Theorem add_messages_keeps_last_20 client_id msgs self :
  (length (history_of client_id self) <= 20)%nat ->
  history_of client_id (add_messages client_id msgs self)
  = slice_last 20
      (history_of client_id self
       ++ List.map (fun '(role, content) => mk_message role content) msgs)
  /\ active_connections (add_messages client_id msgs self)
     = active_connections self.
Proof.
  intros Hb. split; [|apply add_messages_active].
  destruct msgs as [|[role content] msgs].
  - simpl. rewrite app_nil_r. now rewrite slice_last_short.
  - apply history_of_add_messages.
Qed.

(** X4. The cut to 20 messages never changes the history text: the engine
    reads the last five of the messages, which the cut keeps. *)
Theorem history_cut_keeps_prompt client_id msgs self :
  format_history (history_of client_id (add_messages client_id msgs self))
  = format_history
      (history_of client_id self
       ++ List.map (fun '(role, content) => mk_message role content) msgs).
Proof.
  destruct msgs as [|[role content] msgs].
  - simpl. now rewrite app_nil_r.
  - rewrite history_of_add_messages. unfold format_history.
    now rewrite slice_last_le by lia.
Qed.

Lemma add_messages_keeps_last_20_witness :
  (length (history_of (lit "test-client") full_manager) <= 20)%nat
  /\ history_of (lit "test-client")
       (add_messages (lit "test-client")
          [(lit "user", lit "a"); (lit "assistant", lit "b")] full_manager)
     = List.map numbered (seq 2 18)
       ++ [mk_message (lit "user") (lit "a"); mk_message (lit "assistant") (lit "b")].
Proof.
  assert (H : (length (history_of (lit "test-client") full_manager) <= 20)%nat)
    by (vm_compute; lia).
  split; [exact H|].
  exact (proj1 (add_messages_keeps_last_20 (lit "test-client")
                  [(lit "user", lit "a"); (lit "assistant", lit "b")]
                  full_manager H)).
Defined.

(** [list.remove] takes the connection that [connect] has just appended
    when the connection was not in the list before. *)
Lemma list_remove_snoc (ws : websocket) (l : list websocket) :
  ~ In ws l -> list_remove ws (l ++ [ws]) = Some l.
Proof.
  induction l as [|y l IH]; intros Hn; simpl.
  - now rewrite N.eqb_refl.
  - destruct (ws =? y) eqn:E.
    + apply N.eqb_eq in E. subst. exfalso. apply Hn. now left.
    + rewrite IH; [reflexivity|]. intros Hin. apply Hn. now right.
Qed.

Lemma list_remove_None (ws : websocket) (l : list websocket) :
  list_remove ws l = None <-> ~ In ws l.
Proof.
  induction l as [|y l IH]; simpl; [tauto|].
  destruct (ws =? y) eqn:E.
  - apply N.eqb_eq in E. subst. split; [discriminate|]. intros H. exfalso. auto.
  - apply N.eqb_neq in E. destruct (list_remove ws l) eqn:R; simpl.
    + split; [discriminate|]. intros H. exfalso.
      assert (Hn : ~ In ws l) by tauto. apply IH in Hn. discriminate.
    + split; [|reflexivity]. intros _ [Hy|Hin]; [congruence|].
      now apply (proj1 IH).
Qed.

Lemma list_remove_length (ws : websocket) (l l' : list websocket) :
  list_remove ws l = Some l' -> length l = S (length l').
Proof.
  revert l'. induction l as [|y l IH]; intros l'; simpl; [discriminate|].
  destruct (ws =? y); [now intros [= ->]|].
  destruct (list_remove ws l) as [l0|]; simpl; [|discriminate].
  intros [= <-]. simpl. now rewrite (IH l0).
Qed.

(** X5. A connection that opens and closes leaves the list of connections as
    it was and the client without history. *)
Theorem connect_disconnect ws client_id self :
  ~ In ws (active_connections self) ->
  disconnect ws client_id (connect ws client_id self)
  = Return {| active_connections := active_connections self;
              conversation_histories :=
                delete client_id (conversation_histories self) |}.
Proof.
  intros Hn. unfold disconnect, connect. simpl.
  rewrite list_remove_snoc by exact Hn. now rewrite delete_insert_eq.
Qed.

Lemma connect_disconnect_witness :
  ~ In 2 (active_connections full_manager)
  /\ disconnect 2 (lit "other") (connect 2 (lit "other") full_manager)
     = Return {| active_connections := active_connections full_manager;
                 conversation_histories :=
                   delete (lit "other") (conversation_histories full_manager) |}.
Proof.
  assert (H : ~ In 2 (active_connections full_manager)).
  { simpl. intros [H|[]]. discriminate. }
  split; [exact H|].
  exact (connect_disconnect 2 (lit "other") full_manager H).
Defined.

(** X6. [disconnect] fails, with [ValueError], exactly for a connection that is
    not in the list; when it succeeds the list is one connection shorter,
    the client has no history and the other clients keep theirs. *)
Theorem disconnect_outcome ws client_id self :
  (disconnect ws client_id self = Raise (OtherException (lit "ValueError"))
   <-> ~ In ws (active_connections self))
  /\ (forall self',
        disconnect ws client_id self = Return self' ->
        length (active_connections self) = S (length (active_connections self'))
        /\ conversation_histories self' !! client_id = None
        /\ forall other, other <> client_id ->
             conversation_histories self' !! other
             = conversation_histories self !! other).
Proof.
  unfold disconnect. split.
  - rewrite <- (list_remove_None ws (active_connections self)).
    destruct (list_remove ws (active_connections self)); split;
      congruence || discriminate.
  - intros self'.
    destruct (list_remove ws (active_connections self)) as [conns|] eqn:R;
      [|discriminate].
    intros [= <-]. simpl. split; [now apply (list_remove_length ws)|].
    split; [apply lookup_delete_eq|].
    intros other Hne. apply lookup_delete_ne. congruence.
Qed.

(** X7. A message recorded after the client has gone starts a new history. *)
Theorem add_after_disconnect ws client_id role content self self' :
  disconnect ws client_id self = Return self' ->
  history_of client_id (add_message_to_history client_id role content self')
  = [mk_message role content].
Proof.
  unfold disconnect.
  destruct (list_remove ws (active_connections self)); [|discriminate].
  intros [= <-]. rewrite history_of_add. unfold history_of. simpl.
  now rewrite lookup_delete_eq.
Qed.

Lemma add_after_disconnect_witness :
  disconnect 1 (lit "test-client") full_manager
  = Return {| active_connections := [];
              conversation_histories :=
                delete (lit "test-client") (conversation_histories full_manager) |}
  /\ history_of (lit "test-client")
       (add_message_to_history (lit "test-client") (lit "user") (lit "late")
          {| active_connections := [];
             conversation_histories :=
               delete (lit "test-client") (conversation_histories full_manager) |})
     = [mk_message (lit "user") (lit "late")].
Proof.
  split; [reflexivity|].
  exact (add_after_disconnect 1 (lit "test-client") (lit "user") (lit "late")
           full_manager _ eq_refl).
Defined.

(** X1. In every state the manager reaches from its initial one, by calls of
    [connect], [disconnect] and [add_message_to_history] in any order, the
    history read for any client, known or not, has at most 20 messages. *)
Theorem reachable_histories_bounded self client_id :
  rtc step init self -> (length (history_of client_id self) <= 20)%nat.
Proof.
  intros R. pose proof (reachable_bounded self R) as B.
  unfold history_of.
  destruct (conversation_histories self !! client_id) as [history|] eqn:E.
  - exact (B client_id history E).
  - simpl. lia.
Qed.

Lemma reachable_histories_bounded_witness :
  rtc step init
    (add_message_to_history (lit "c") (lit "user") (lit "Hi")
       (connect 1 (lit "c") init))
  /\ (length
        (history_of (lit "c")
           (add_message_to_history (lit "c") (lit "user") (lit "Hi")
              (connect 1%N (lit "c") init))) <= 20)%nat.
Proof.
  assert (R : rtc step init
                (add_message_to_history (lit "c") (lit "user") (lit "Hi")
                   (connect 1 (lit "c") init))).
  { eapply rtc_l; [apply step_connect|].
    eapply rtc_l; [apply step_add|]. apply rtc_refl. }
  split; [exact R|]. exact (reachable_histories_bounded _ (lit "c") R).
Defined.

End ManagerExtras.

(** ** More on the generator *)

Lemma slice_last_app_r {A} (n : nat) (l k : list A) :
  (n <= length k)%nat -> slice_last n (l ++ k) = slice_last n k.
Proof.
  intros H. unfold slice_last. rewrite length_app, drop_app_ge by lia.
  f_equal. lia.
Qed.

Section StripEnds.

Variable p : char -> bool.

Lemma lstrip_by_head s c u : lstrip_by p s = c :: u -> p c = false.
Proof.
  induction s as [|a s IH]; simpl; [discriminate|].
  destruct (p a) eqn:E; [exact IH|]. intros [= <- _]. exact E.
Qed.

(** Stripping on the right keeps a prefix. *)
Lemma rstrip_by_prefix s : exists t, s = rstrip_by p s ++ t.
Proof.
  induction s as [|c s IH] using rev_ind.
  - now exists [].
  - destruct (p c) eqn:E.
    + rewrite rstrip_by_snoc_true by exact E. destruct IH as [t Ht].
      exists (t ++ [c]). now rewrite app_assoc, <- Ht.
    + rewrite rstrip_by_snoc_false by exact E. exists []. now rewrite app_nil_r.
Qed.

Lemma strip_by_head s c u : strip_by p s = c :: u -> p c = false.
Proof.
  unfold strip_by. intros H.
  destruct (rstrip_by_prefix (lstrip_by p s)) as [t Ht].
  rewrite H in Ht. simpl in Ht. exact (lstrip_by_head _ _ _ Ht).
Qed.

Lemma strip_by_last s u c : strip_by p s = u ++ [c] -> p c = false.
Proof.
  unfold strip_by, rstrip_by. intros H.
  apply (f_equal (@rev _)) in H. rewrite rev_involutive, rev_unit in H.
  exact (lstrip_by_head _ _ _ H).
Qed.

End StripEnds.

(** No piece of a split holds the separator. *)
Lemma split_no_sep sep s :
  Forall (fun piece => forallb (fun c => negb (c =? sep)) piece = true) (split sep s).
Proof.
  induction s as [|c s IH].
  - repeat constructor.
  - rewrite split_cons. destruct (c =? sep) eqn:E.
    + now constructor.
    + destruct (split sep s) as [|piece rest]; simpl.
      * repeat constructor. simpl. now rewrite E.
      * inversion IH; subst. constructor; [|assumption]. simpl. now rewrite E.
Qed.

Lemma clean_line_tidy line :
  forallb (fun c => negb (c =? LF)) line = true ->
  keep_line (clean_line line) = true -> tidy (VStr (clean_line line)).
Proof.
  intros Hlf Hk. exists (clean_line line). split; [reflexivity|].
  unfold keep_line in Hk. rewrite !andb_true_iff, !negb_true_iff in Hk.
  destruct Hk as [[Ht Hl] Hr].
  split; [now destruct (clean_line line)|]. split; [exact Hl|]. split; [exact Hr|].
  split; [|split].
  - intros c u E. unfold clean_line, strip in E. exact (strip_by_head _ _ _ _ E).
  - intros u c E. unfold clean_line, strip in E. exact (strip_by_last _ _ _ _ E).
  - assert (H : forallb (fun c => negb (c =? LF)) (clean_line line) = true).
    { unfold clean_line, strip, strip_chars. now do 3 apply forallb_strip_by. }
    intros Hin. rewrite forallb_forall in H. apply H in Hin.
    unfold LF in Hin. now rewrite N.eqb_refl in Hin.
Qed.

Lemma split_recovery_tidy response : Forall tidy (split_recovery response).
Proof.
  rewrite split_recovery_raw. unfold cleaned_lines.
  apply Forall_forall. intros v Hv.
  apply list_elem_of_In, in_map_iff in Hv as (s & <- & Hs).
  apply list_elem_of_In, (elem_of_take s) in Hs as (i & Hs & _).
  apply list_elem_of_lookup_2, list_elem_of_In, filter_In in Hs as [Hs Hk].
  apply in_map_iff in Hs as (line & <- & Hl).
  apply clean_line_tidy; [|exact Hk].
  pose proof (split_no_sep LF response) as Hf.
  rewrite Forall_forall in Hf. apply Hf. now apply list_elem_of_In.
Qed.

Lemma split_recovery_blank response :
  strip response = [] -> split_recovery response = [].
Proof. intros H. unfold split_recovery. now rewrite H. Qed.

Section GeneratorExtras.

Context {backend : Type}.
Variable run : str -> str -> str -> backend -> outcome str * backend.
Variable json_loads : str -> outcome pyval.
Implicit Types (h t p : str) (b : backend).

Local Abbreviation generate := (generate_suggestions run json_loads).
Local Abbreviation suggest := (get_contextual_suggestions run json_loads).

(** X8. On the line recovery every suggestion is a string that is not empty,
    has no whitespace at either end and no line feed inside, and does not
    start with a bracket. *)
Theorem generate_suggestions_recovery_tidy h t p b response :
  (run h t p b).1 = Return response ->
  json_loads (strip response) = Raise JSONDecodeError ->
  exists suggestions,
    (generate h t p b).1 = Return suggestions /\ Forall tidy suggestions.
Proof.
  intros E Hj. exists (split_recovery response).
  split; [exact (generate_decode_error _ _ _ _ _ _ _ E Hj)|].
  apply split_recovery_tidy.
Qed.

(** X9. A text of the backend that is empty or all whitespace gives the empty
    list, not the hard-coded one (the decoder fails on the empty text). *)
Theorem generate_suggestions_blank_text h t p b response :
  (run h t p b).1 = Return response ->
  strip response = [] ->
  json_loads [] = Raise JSONDecodeError ->
  (generate h t p b).1 = Return [].
Proof.
  intros E Hs Hj. rewrite <- Hs in Hj.
  rewrite (generate_decode_error _ _ _ _ _ _ _ E Hj).
  now rewrite split_recovery_blank.
Qed.

(** X10. Only the last five messages reach the backend: messages before them
    change nothing. *)
Theorem get_contextual_suggestions_last_five older recent topic interests b :
  (5 <= length recent)%nat ->
  format_history (older ++ recent) = format_history recent
  /\ suggest (older ++ recent) topic interests b = suggest recent topic interests b.
Proof.
  intros H.
  assert (E : format_history (older ++ recent) = format_history recent).
  { unfold format_history. now rewrite slice_last_app_r. }
  split; [exact E|]. unfold get_contextual_suggestions. now rewrite E.
Qed.

(** One call runs the chain exactly once, with the three texts it was
    given, on every path: parse, recovery, hard-coded list or exception. *)
Theorem generate_suggestions_runs_chain_once h t p b log :
  (generate_suggestions (recording_run run) json_loads h t p (b, log)).2
  = ((run h t p b).2, log ++ [(h, t, p)]).
Proof. now rewrite generate_backend, recording_run_state. Qed.

End GeneratorExtras.

Lemma generate_suggestions_recovery_tidy_witness :
  (fixed_run (Return two_line_text) [] [] [] tt).1 = Return two_line_text
  /\ JsonRef.loads (strip two_line_text) = Raise JSONDecodeError
  /\ exists suggestions,
       (generate_suggestions (fixed_run (Return two_line_text)) JsonRef.loads
          [] [] [] tt).1 = Return suggestions
       /\ Forall tidy suggestions.
Proof.
  assert (J : JsonRef.loads (strip two_line_text) = Raise JSONDecodeError)
    by (vm_compute; reflexivity).
  split; [reflexivity|]. split; [exact J|].
  exact (generate_suggestions_recovery_tidy (fixed_run (Return two_line_text))
           JsonRef.loads [] [] [] tt two_line_text eq_refl J).
Defined.

Lemma generate_suggestions_blank_text_witness :
  (fixed_run (Return (lit "  " ++ [LF])) [] [] [] tt).1 = Return (lit "  " ++ [LF])
  /\ strip (lit "  " ++ [LF]) = []
  /\ JsonRef.loads [] = Raise JSONDecodeError
  /\ (generate_suggestions (fixed_run (Return (lit "  " ++ [LF]))) JsonRef.loads
        [] [] [] tt).1 = Return [].
Proof.
  split; [reflexivity|]. split; [reflexivity|]. split; [reflexivity|].
  exact (generate_suggestions_blank_text (fixed_run (Return (lit "  " ++ [LF])))
           JsonRef.loads [] [] [] tt (lit "  " ++ [LF]) eq_refl eq_refl eq_refl).
Defined.

Lemma get_contextual_suggestions_last_five_witness :
  (5 <= length (List.map numbered (seq 2 5)))%nat
  /\ format_history (List.map numbered (seq 0 2) ++ List.map numbered (seq 2 5))
     = format_history (List.map numbered (seq 2 5))
  /\ get_contextual_suggestions (fixed_run (Return five_text)) JsonRef.loads
       (List.map numbered (seq 0 2) ++ List.map numbered (seq 2 5)) [] None tt
     = get_contextual_suggestions (fixed_run (Return five_text)) JsonRef.loads
         (List.map numbered (seq 2 5)) [] None tt.
Proof.
  assert (H : (5 <= length (List.map numbered (seq 2 5)))%nat) by (simpl; lia).
  split; [exact H|].
  exact (get_contextual_suggestions_last_five (fixed_run (Return five_text))
           JsonRef.loads (List.map numbered (seq 0 2))
           (List.map numbered (seq 2 5)) [] None tt H).
Defined.

(** ** The endpoints *)

Module EndpointProperties.
Import ConnectionManager ManagerProperties ManagerExtras Endpoint.

Lemma slice_last_snoc2 {A} (n : nat) (l : list A) (x y : A) :
  slice_last (S (S n)) (l ++ [x; y]) = slice_last n l ++ [x; y].
Proof.
  unfold slice_last. rewrite length_app. simpl.
  rewrite drop_app_le by lia. f_equal. f_equal. lia.
Qed.

Lemma render_mk_message role content :
  render_message (mk_message role content) = role ++ lit ": " ++ content ++ [LF].
Proof.
  apply render_message_full; unfold mk_message.
  - apply lookup_insert_eq.
  - rewrite lookup_insert_ne by (intros H; vm_compute in H; discriminate).
    apply lookup_singleton_eq.
Qed.

(** The history text after a user message and its answer: the lines of the
    three messages before them, then their two lines. *)
Lemma format_history_after_exchange client_id user_message self :
  format_history
    (history_of client_id
       (add_message_to_history client_id (lit "assistant")
          (avatar_response user_message)
          (add_message_to_history client_id (lit "user") user_message self)))
  = format_history (slice_last 3 (history_of client_id self))
    ++ (lit "user: " ++ user_message ++ [LF])
    ++ (lit "assistant: I understand you said: " ++ user_message ++ [LF]).
Proof.
  unfold avatar_response.
  rewrite !history_of_add, slice_last_app, <- app_assoc. simpl.
  rewrite !format_history_concat, (slice_last_le 5 20) by lia.
  rewrite (slice_last_snoc2 3).
  rewrite (slice_last_short 5 (slice_last 3 _))
    by (rewrite length_slice_last; lia).
  rewrite List.map_app, concat_app. simpl.
  rewrite !render_mk_message, app_nil_r. reflexivity.
Qed.

Section WithProcess.

Context {backend net : Type}.
Variable run : str -> str -> str -> backend -> outcome str * backend.
Variable json_loads : str -> outcome pyval.
Variable accept : websocket -> net -> outcome unit * net.
Variable send_text : websocket -> outbound -> net -> outcome unit * net.
Implicit Types (w : world backend net) (ws : websocket) (client_id data : str).

Local Abbreviation on_message := (Endpoint.on_message (backend:=backend) send_text).
Local Abbreviation on_get_suggestions :=
  (Endpoint.on_get_suggestions run json_loads send_text).
Local Abbreviation on_frame := (Endpoint.on_frame run json_loads send_text).
Local Abbreviation serve := (Endpoint.serve run json_loads send_text).
Local Abbreviation websocket_endpoint :=
  (Endpoint.websocket_endpoint run json_loads accept send_text).
Local Abbreviation get_suggestions_api := (Endpoint.get_suggestions_api run json_loads).

(** The branch of a message, by the outcome of its two sends. *)
Lemma on_message_cases ws client_id user_message w :
  let m1 := add_message_to_history client_id (lit "user") user_message (manager w) in
  let m2 := add_message_to_history client_id (lit "assistant") (avatar_response user_message) m1 in
  on_message ws client_id user_message w
  = match send_text ws (MessageFrame (lit "user") user_message) (wire w) with
    | (Raise e, n1) => (Raise e, mkWorld m1 (engine w) n1)
    | (Return _, n1) =>
        let '(o, n2) :=
          send_text ws (MessageFrame (lit "assistant") (avatar_response user_message)) n1 in
        (o, mkWorld m2 (engine w) n2)
    end.
Proof.
  unfold Endpoint.on_message, mbind, M_bind, bind, update_manager, send_message,
    on_wire. simpl.
  destruct (send_text ws _ (wire w)) as [[[]|e] n1]; reflexivity.
Qed.

Lemma history_after_exchange client_id user_message (m : ConnectionManager.t) :
  history_of client_id
    (add_message_to_history client_id (lit "assistant")
       (avatar_response user_message)
       (add_message_to_history client_id (lit "user") user_message m))
  = slice_last 20
      (history_of client_id m
       ++ [mk_message (lit "user") user_message;
           mk_message (lit "assistant") (avatar_response user_message)]).
Proof. now rewrite !history_of_add, slice_last_app, <- app_assoc. Qed.

Lemma on_frame_message_branch ws client_id data w message_data user_message :
  json_loads data = Return message_data ->
  subscript message_data (lit "type") = Return (VStr (lit "message")) ->
  subscript message_data (lit "content") = Return (VStr user_message) ->
  on_frame ws client_id data w = Some (on_message ws client_id user_message w).
Proof.
  intros Hj Ht Hc. unfold Endpoint.on_frame, dispatch. now rewrite Hj, Ht, Hc.
Qed.

(** X11. A message frame whose two sends succeed: both messages are at the end
    of the history, cut to its last 20; the two frames went out in order;
    the backend was not run. *)
Theorem on_frame_message ws client_id data w message_data user_message n1 n2 :
  json_loads data = Return message_data ->
  subscript message_data (lit "type") = Return (VStr (lit "message")) ->
  subscript message_data (lit "content") = Return (VStr user_message) ->
  send_text ws (MessageFrame (lit "user") user_message) (wire w) = (Return tt, n1) ->
  send_text ws (MessageFrame (lit "assistant") (avatar_response user_message)) n1
  = (Return tt, n2) ->
  exists w',
    on_frame ws client_id data w = Some (Return tt, w')
    /\ history_of client_id (manager w')
       = slice_last 20
           (history_of client_id (manager w)
            ++ [mk_message (lit "user") user_message;
                mk_message (lit "assistant") (avatar_response user_message)])
    /\ active_connections (manager w') = active_connections (manager w)
    /\ engine w' = engine w
    /\ wire w' = n2.
Proof.
  intros Hj Ht Hc S1 S2.
  rewrite (on_frame_message_branch _ _ _ _ _ _ Hj Ht Hc), on_message_cases.
  rewrite S1, S2. eexists. split; [reflexivity|]. simpl.
  split; [apply history_after_exchange|]. auto.
Qed.

(** X12. The user message is recorded before it is echoed: when the echo fails,
    the exception leaves the loop body, the message is in the history and
    no answer is. *)
Theorem on_frame_message_echo_fails ws client_id data w message_data user_message
    e n1 :
  json_loads data = Return message_data ->
  subscript message_data (lit "type") = Return (VStr (lit "message")) ->
  subscript message_data (lit "content") = Return (VStr user_message) ->
  send_text ws (MessageFrame (lit "user") user_message) (wire w) = (Raise e, n1) ->
  exists w',
    on_frame ws client_id data w = Some (Raise e, w')
    /\ history_of client_id (manager w')
       = slice_last 20
           (history_of client_id (manager w)
            ++ [mk_message (lit "user") user_message])
    /\ wire w' = n1.
Proof.
  intros Hj Ht Hc S1.
  rewrite (on_frame_message_branch _ _ _ _ _ _ Hj Ht Hc), on_message_cases.
  rewrite S1. eexists. split; [reflexivity|]. simpl.
  split; [apply history_of_add | reflexivity].
Qed.

(** The branch of a request for suggestions, by the outcome of the engine. *)
Lemma on_get_suggestions_cases ws client_id w :
  on_get_suggestions ws client_id w
  = match
      get_contextual_suggestions run json_loads
        (history_of client_id (manager w)) [] None (engine w)
    with
    | (Raise e, b) => (Raise e, mkWorld (manager w) b (wire w))
    | (Return suggestions, b) =>
        let '(o, n) := send_text ws (SuggestionsFrame suggestions) (wire w) in
        (o, mkWorld (manager w) b n)
    end.
Proof.
  unfold Endpoint.on_get_suggestions, mbind, M_bind, bind, suggest, send_message,
    on_wire.
  destruct (get_contextual_suggestions _ _ _ _ _ _) as [[l|e] b]; reflexivity.
Qed.

Lemma on_frame_suggestions_branch ws client_id data w message_data :
  json_loads data = Return message_data ->
  subscript message_data (lit "type") = Return (VStr (lit "get_suggestions")) ->
  on_frame ws client_id data w = Some (on_get_suggestions ws client_id w).
Proof.
  intros Hj Ht. unfold Endpoint.on_frame, dispatch. now rewrite Hj, Ht.
Qed.

(** X13. A request for suggestions leaves the manager as it is and runs the
    chain once, on the text of the client's history, the topic text
    [General conversation] and no preferences; when the engine raises, the
    exception leaves the loop body and nothing is sent. *)
Theorem on_frame_get_suggestions ws client_id data w message_data :
  json_loads data = Return message_data ->
  subscript message_data (lit "type") = Return (VStr (lit "get_suggestions")) ->
  exists o w',
    on_frame ws client_id data w = Some (o, w')
    /\ manager w' = manager w
    /\ engine w'
       = (run (format_history (history_of client_id (manager w)))
            (lit "General conversation") [] (engine w)).2
    /\ (forall e,
          (get_contextual_suggestions run json_loads
             (history_of client_id (manager w)) [] None (engine w)).1 = Raise e ->
          o = Raise e /\ wire w' = wire w).
Proof.
  intros Hj Ht.
  rewrite (on_frame_suggestions_branch _ _ _ _ _ Hj Ht), on_get_suggestions_cases.
  pose proof (generate_backend run json_loads
                (format_history (history_of client_id (manager w)))
                (lit "General conversation") [] (engine w)) as Hb.
  change (generate_suggestions run json_loads _ _ _ _)
    with (get_contextual_suggestions run json_loads
            (history_of client_id (manager w)) [] None (engine w)) in Hb.
  destruct (get_contextual_suggestions _ _ _ _ _ _) as [[l|e] b]; simpl in Hb.
  - destruct (send_text ws _ (wire w)) as [o n]. eexists _, _.
    split; [reflexivity|]. simpl. split; [reflexivity|]. split; [exact Hb|].
    discriminate.
  - eexists _, _. split; [reflexivity|]. simpl. split; [reflexivity|].
    split; [exact Hb|]. now intros e' [= ->].
Qed.

(** X15. A request for suggestions while the run of the chain raises
    [json.JSONDecodeError]: the [UnboundLocalError] of the engine leaves the
    coroutine, nothing is sent, and no [disconnect] follows; the connection
    and the history stay in the manager. *)
Theorem serve_backend_decode_error ws client_id data events w message_data :
  json_loads data = Return message_data ->
  subscript message_data (lit "type") = Return (VStr (lit "get_suggestions")) ->
  (run (format_history (history_of client_id (manager w)))
     (lit "General conversation") [] (engine w)).1 = Raise JSONDecodeError ->
  exists b,
    serve ws client_id (Text data :: events) w
    = Some (Done (Raise (UnboundLocalError (lit "response"))),
            mkWorld (manager w) b (wire w)).
Proof.
  intros Hj Ht Hr. simpl.
  rewrite (on_frame_suggestions_branch _ _ _ _ _ Hj Ht), on_get_suggestions_cases.
  pose proof (generate_run_raises run json_loads _ _ _ _ _ Hr) as Hg.
  change (generate_suggestions run json_loads _ _ _ _)
    with (get_contextual_suggestions run json_loads
            (history_of client_id (manager w)) [] None (engine w)) in Hg.
  destruct (get_contextual_suggestions _ _ _ _ _ _) as [[l|e] b]; simpl in Hg;
    [discriminate|].
  injection Hg as ->. now exists b.
Qed.

Lemma is_WebSocketDisconnect_inv e :
  is_WebSocketDisconnect e = true -> e = WebSocketDisconnect.
Proof.
  destruct e; simpl; try discriminate.
  intros H. apply bool_decide_eq_true in H. now subst.
Qed.

(** X14. A frame the loop body cannot read ends the coroutine with the exception
    and without [disconnect]: the text is not JSON, the decoded value is
    not a dict, or the dict has no key [type]. The later frames are not
    read, the connection stays in the list and the history stays. *)
Theorem serve_unreadable_frame ws client_id data events w :
  (json_loads data = Raise JSONDecodeError ->
   serve ws client_id (Text data :: events) w
   = Some (Done (Raise JSONDecodeError), w))
  /\ (forall members,
        json_loads data = Return (VDict members) ->
        dict_lookup (lit "type") members = None ->
        serve ws client_id (Text data :: events) w
        = Some (Done (Raise (OtherException (lit "KeyError"))), w))
  /\ (forall v,
        json_loads data = Return v ->
        (forall members, v <> VDict members) ->
        serve ws client_id (Text data :: events) w
        = Some (Done (Raise (OtherException (lit "TypeError"))), w))
  /\ (forall members,
        json_loads data = Return (VDict members) ->
        dict_lookup (lit "type") members = Some (VStr (lit "message")) ->
        dict_lookup (lit "content") members = None ->
        serve ws client_id (Text data :: events) w
        = Some (Done (Raise (OtherException (lit "KeyError"))), w)).
Proof.
  split; [|split; [|split]].
  - intros Hj. simpl. unfold Endpoint.on_frame. now rewrite Hj.
  - intros members Hj Hl. simpl. unfold Endpoint.on_frame, dispatch, subscript.
    now rewrite Hj, Hl.
  - intros v Hj Hv. simpl. unfold Endpoint.on_frame, dispatch, subscript.
    rewrite Hj. destruct v; try reflexivity. now destruct (Hv members).
  - intros members Hj Ht Hc. simpl. unfold Endpoint.on_frame, dispatch, subscript.
    now rewrite Hj, Ht, Hc.
Qed.

(** X16. When the client goes, [receive_text] raises [WebSocketDisconnect]: for
    a connection of the list the coroutine ends normally, the connection
    leaves the list and the client's history is deleted. *)
Theorem serve_disconnect ws client_id events w :
  In ws (active_connections (manager w)) ->
  exists m,
    disconnect ws client_id (manager w) = Return m
    /\ serve ws client_id (ReceiveError WebSocketDisconnect :: events) w
       = Some (Done (Return tt), mkWorld m (engine w) (wire w))
    /\ conversation_histories m !! client_id = None
    /\ length (active_connections (manager w)) = S (length (active_connections m)).
Proof.
  intros Hin. simpl. unfold on_exception. simpl.
  destruct (disconnect ws client_id (manager w)) as [m|e] eqn:D.
  - exists m. split; [reflexivity|]. split; [reflexivity|].
    unfold disconnect in D.
    destruct (list_remove ws (active_connections (manager w))) as [conns|] eqn:R;
      [|discriminate].
    injection D as <-. simpl. split; [apply lookup_delete_eq|].
    now apply (list_remove_length ws).
  - exfalso. unfold disconnect in D.
    destruct (list_remove ws (active_connections (manager w))) eqn:R;
      [discriminate|].
    now apply list_remove_None in R.
Qed.

(** X17. A frame of any other type is skipped: nothing is recorded, run or
    sent. *)
Theorem serve_other_type ws client_id data events w message_data type :
  json_loads data = Return message_data ->
  subscript message_data (lit "type") = Return type ->
  is_str type (lit "message") = false ->
  is_str type (lit "get_suggestions") = false ->
  serve ws client_id (Text data :: events) w = serve ws client_id events w.
Proof.
  intros Hj Ht H1 H2. simpl. unfold Endpoint.on_frame, dispatch.
  now rewrite Hj, Ht, H1, H2.
Qed.

(** What a frame can do to the manager: the list of connections stays, the
    other clients keep their histories, the bound on the histories holds
    on. *)
Lemma on_frame_manager ws client_id data w o w' :
  on_frame ws client_id data w = Some (o, w') ->
  active_connections (manager w') = active_connections (manager w)
  /\ (forall other, other <> client_id ->
        conversation_histories (manager w') !! other
        = conversation_histories (manager w) !! other)
  /\ (bounded (manager w) -> bounded (manager w')).
Proof.
  unfold Endpoint.on_frame.
  destruct (json_loads data) as [message_data|e]; [|now intros [= <- <-]].
  destruct (dispatch message_data) as [[user_message| |]|e];
    try now intros [= <- <-].
  - destruct user_message as [| | |user_message| |]; try discriminate.
    rewrite on_message_cases. cbv zeta.
    destruct (send_text ws _ (wire w)) as [[[]|e] n1].
    + destruct (send_text ws _ n1) as [o2 n2]. intros [= <- <-].
      cbn [manager]. split; [reflexivity|]. split.
      * intros other Hne. now rewrite !add_message_lookup_ne by congruence.
      * intros Hb. now do 2 apply add_message_bounded.
    + intros [= <- <-]. cbn [manager]. split; [reflexivity|]. split.
      * intros other Hne. now rewrite add_message_lookup_ne by congruence.
      * apply add_message_bounded.
  - rewrite on_get_suggestions_cases.
    destruct (get_contextual_suggestions _ _ _ _ _ _) as [[l|e] b].
    + destruct (send_text ws _ (wire w)) as [o2 n2]. now intros [= <- <-].
    + now intros [= <- <-].
Qed.

(** However a session on which [serve] is defined goes, it touches no
    history but its client's and keeps every history within 20 messages;
    while it waits for the next frame the list of connections is as it found
    it. *)
Lemma serve_preserves ws client_id events w st w' :
  serve ws client_id events w = Some (st, w') ->
  (forall other, other <> client_id ->
     conversation_histories (manager w') !! other
     = conversation_histories (manager w) !! other)
  /\ (bounded (manager w) -> bounded (manager w'))
  /\ (st = Waiting ->
      active_connections (manager w') = active_connections (manager w)).
Proof.
  revert w. induction events as [|ev events IH]; intros w; simpl.
  - intros [= <- <-]. auto.
  - assert (Hexc : forall e w1,
              active_connections (manager w1) = active_connections (manager w) ->
              (forall other, other <> client_id ->
                 conversation_histories (manager w1) !! other
                 = conversation_histories (manager w) !! other) ->
              (bounded (manager w) -> bounded (manager w1)) ->
              Some (on_exception ws client_id e w1) = Some (st, w') ->
              (forall other, other <> client_id ->
                 conversation_histories (manager w') !! other
                 = conversation_histories (manager w) !! other)
              /\ (bounded (manager w) -> bounded (manager w'))
              /\ (st = Waiting ->
                  active_connections (manager w') = active_connections (manager w))).
    { intros e w1 Ha Ho Hb. unfold on_exception.
      destruct (is_WebSocketDisconnect e).
      - destruct (disconnect ws client_id (manager w1)) as [m|e'] eqn:D.
        + intros [= <- <-]. simpl. split; [|split; [|discriminate]].
          * intros other Hne. rewrite <- (Ho other Hne).
            unfold disconnect in D.
            destruct (list_remove ws _); [|discriminate]. injection D as <-.
            simpl. apply lookup_delete_ne. congruence.
          * intros B. exact (disconnect_bounded _ _ _ _ D (Hb B)).
        + intros [= <- <-]. split; [exact Ho|]. split; [exact Hb|discriminate].
      - intros [= <- <-]. split; [exact Ho|]. split; [exact Hb|discriminate]. }
    destruct ev as [data|e].
    + destruct (on_frame ws client_id data w) as [[[[]|e] w1]|] eqn:F;
        [| |discriminate].
      * destruct (on_frame_manager _ _ _ _ _ _ F) as (Ha & Ho & Hb).
        intros H. destruct (IH _ H) as (Ho' & Hb' & Ha').
        split; [|split].
        -- intros other Hne. now rewrite Ho', Ho.
        -- auto.
        -- intros ->. now rewrite Ha', Ha.
      * destruct (on_frame_manager _ _ _ _ _ _ F) as (Ha & Ho & Hb).
        now apply Hexc.
    + now apply Hexc.
Qed.

Lemma on_frame_defined ws client_id data w :
  string_content json_loads data = true ->
  exists o w', on_frame ws client_id data w = Some (o, w').
Proof.
  unfold string_content, on_frame.
  destruct (json_loads data) as [message_data|e]; [|now eexists _, _].
  destruct (dispatch message_data) as [[user_message| |]|e].
  - destruct user_message as [| | |user_message| |]; try discriminate.
    intros _. destruct (on_message ws client_id user_message w) as [o w'].
    now eexists _, _.
  - intros _. destruct (on_get_suggestions ws client_id w) as [o w'].
    now eexists _, _.
  - now eexists _, _.
  - now eexists _, _.
Qed.

Lemma serve_defined ws client_id events w :
  string_contents json_loads events = true ->
  exists st w', serve ws client_id events w = Some (st, w').
Proof.
  revert w. induction events as [|ev events IH]; intros w; simpl.
  - now eexists _, _.
  - intros [Hev Hevs]%andb_true_iff. destruct ev as [data|e].
    + destruct (on_frame_defined ws client_id data w Hev) as ([u|e] & w1 & ->).
      * now apply IH.
      * destruct (on_exception ws client_id e w1). now eexists _, _.
    + destruct (on_exception ws client_id e w). now eexists _, _.
Qed.


(** The answer of [/suggestions], by the outcome of the engine on the
    values of the request. *)
Lemma get_suggestions_api_cases (request : request) (b : backend) :
  get_suggestions_api request b
  = match
      get_contextual_suggestions run json_loads
        (default [] (req_conversation_history request))
        (default [] (req_topic request))
        (Some (default [] (req_user_interests request))) b
    with
    | (Return l, b') => (Return (mkResponse l (lit "success")), b')
    | (Raise e, b') => (Raise e, b')
    end.
Proof. reflexivity. Qed.

(** X21. The two transports agree: for the history of a client and the same
    backend, the frame of suggestions carries the list that [/suggestions]
    answers for a request with that history and no other key, and an
    exception of the one is an exception of the other. *)
Theorem websocket_agrees_with_api ws client_id w :
  let history := history_of client_id (manager w) in
  match get_suggestions_api (mkRequest (Some history) None None) (engine w) with
  | (Return answer, b) =>
      status answer = lit "success"
      /\ on_get_suggestions ws client_id w
         = (let '(o, n) :=
              send_text ws (SuggestionsFrame (suggestions answer)) (wire w) in
            (o, mkWorld (manager w) b n))
  | (Raise e, b) =>
      on_get_suggestions ws client_id w = (Raise e, mkWorld (manager w) b (wire w))
  end.
Proof.
  intros history. rewrite get_suggestions_api_cases, on_get_suggestions_cases.
  simpl.
  change (get_contextual_suggestions run json_loads history [] (Some []) (engine w))
    with (get_contextual_suggestions run json_loads history [] None (engine w)).
  subst history.
  destruct (get_contextual_suggestions _ _ _ _ _ _) as [[l|e] b]; simpl; auto.
Qed.

(** X22. [/suggestions] with an empty request runs the chain on the empty
    history text, the topic text [General conversation] and no
    preferences; and it answers with the status [success] also when the
    backend failed and the suggestions are the hard-coded ones. *)
Theorem get_suggestions_api_empty_request (b : backend) :
  (get_suggestions_api (mkRequest None None None) b).2
  = (run [] (lit "General conversation") [] b).2
  /\ (forall e,
        (run [] (lit "General conversation") [] b).1 = Raise e ->
        is_Exception e = true -> is_JSONDecodeError e = false ->
        (get_suggestions_api (mkRequest None None None) b).1
        = Return (mkResponse fallback_suggestions (lit "success"))).
Proof.
  rewrite get_suggestions_api_cases. simpl.
  change (get_contextual_suggestions run json_loads [] [] (Some []) b)
    with (generate_suggestions run json_loads [] (lit "General conversation") [] b).
  split.
  - rewrite <- (generate_backend run json_loads).
    now destruct (generate_suggestions _ _ _ _ _ _) as [[l|e] b'].
  - intros e E He Hj.
    pose proof (generate_run_exception run json_loads _ _ _ _ _ E He Hj) as H.
    destruct (generate_suggestions _ _ _ _ _ _) as [[l|e'] b']; simpl in *;
      congruence.
Qed.

(** X19. After a message frame, a request for suggestions runs the chain on a
    history text that ends with the line of the user message and the line
    of the answer to it, after the lines of the three messages before; the
    topic text is [General conversation] and there are no preferences. *)
Theorem suggestions_after_message ws client_id data1 data2 w message1 message2
    user_message n1 n2 :
  json_loads data1 = Return message1 ->
  subscript message1 (lit "type") = Return (VStr (lit "message")) ->
  subscript message1 (lit "content") = Return (VStr user_message) ->
  send_text ws (MessageFrame (lit "user") user_message) (wire w) = (Return tt, n1) ->
  send_text ws (MessageFrame (lit "assistant") (avatar_response user_message)) n1
  = (Return tt, n2) ->
  json_loads data2 = Return message2 ->
  subscript message2 (lit "type") = Return (VStr (lit "get_suggestions")) ->
  exists w1 o w2,
    on_frame ws client_id data1 w = Some (Return tt, w1)
    /\ on_frame ws client_id data2 w1 = Some (o, w2)
    /\ engine w2
       = (run (format_history (slice_last 3 (history_of client_id (manager w)))
               ++ (lit "user: " ++ user_message ++ [LF])
               ++ (lit "assistant: I understand you said: " ++ user_message ++ [LF]))
            (lit "General conversation") [] (engine w)).2.
Proof.
  intros Hj1 Ht1 Hc1 S1 S2 Hj2 Ht2.
  set (m2 := add_message_to_history client_id (lit "assistant")
               (avatar_response user_message)
               (add_message_to_history client_id (lit "user") user_message
                  (manager w))).
  exists (mkWorld m2 (engine w) n2).
  rewrite (on_frame_message_branch _ _ _ _ _ _ Hj1 Ht1 Hc1), on_message_cases.
  rewrite S1, S2. cbv zeta.
  rewrite (on_frame_suggestions_branch _ _ _ _ _ Hj2 Ht2), on_get_suggestions_cases.
  cbn [manager engine wire].
  rewrite <- format_history_after_exchange. fold m2.
  pose proof (generate_backend run json_loads
                (format_history (history_of client_id m2))
                (lit "General conversation") [] (engine w)) as Hb.
  change (generate_suggestions run json_loads _ _ _ _)
    with (get_contextual_suggestions run json_loads
            (history_of client_id m2) [] None (engine w)) in Hb.
  destruct (get_contextual_suggestions _ _ _ _ _ _) as [[l|e] b]; simpl in Hb.
  - destruct (send_text ws _ n2) as [o n]. eexists _, _.
    split; [reflexivity|]. split; [reflexivity|]. exact Hb.
  - eexists _, _. split; [reflexivity|]. split; [reflexivity|]. exact Hb.
Qed.

Lemma serve_waiting ws client_id events w w1 :
  serve ws client_id events w = Some (Waiting, w1) ->
  active_connections (manager w1) = active_connections (manager w)
  /\ (forall other, other <> client_id ->
        conversation_histories (manager w1) !! other
        = conversation_histories (manager w) !! other).
Proof.
  revert w. induction events as [|ev events IH]; intros w; simpl.
  - now intros [= <-].
  - destruct ev as [data|e].
    + destruct (on_frame ws client_id data w) as [[[[]|e] w']|] eqn:F;
        [| |discriminate].
      * destruct (on_frame_manager _ _ _ _ _ _ F) as (Ha & Ho & _).
        intros H. destruct (IH _ H) as (Ha' & Ho'). split; [congruence|].
        intros other Hne. now rewrite Ho', Ho.
      * unfold on_exception. destruct (is_WebSocketDisconnect e);
          [destruct (disconnect _ _ _)|]; discriminate.
    + unfold on_exception. destruct (is_WebSocketDisconnect e);
        [destruct (disconnect _ _ _)|]; discriminate.
Qed.

Lemma serve_app ws client_id events more w w1 :
  serve ws client_id events w = Some (Waiting, w1) ->
  serve ws client_id (events ++ more) w = serve ws client_id more w1.
Proof.
  revert w. induction events as [|ev events IH]; intros w; simpl.
  - now intros [= <-].
  - destruct (match ev with
              | Text data => on_frame ws client_id data w
              | ReceiveError e => Some (Raise e, w)
              end) as [[[[]|e] w']|]; [apply IH| |discriminate].
    unfold on_exception. destruct (is_WebSocketDisconnect e);
      [destruct (disconnect _ _ _)|]; discriminate.
Qed.


End WithProcess.




(** *** Concrete runs of the endpoints *)

Lemma message_frame_decodes :
  JsonRef.loads message_frame_text
  = Return (VDict [(lit "type", VStr (lit "message"));
                   (lit "content", VStr (lit "Hi"))]).
Proof. vm_compute. reflexivity. Qed.

Lemma get_suggestions_frame_decodes :
  JsonRef.loads get_suggestions_frame_text
  = Return (VDict [(lit "type", VStr (lit "get_suggestions"))]).
Proof. vm_compute. reflexivity. Qed.

Lemma ping_frame_decodes :
  JsonRef.loads ping_frame_text = Return (VDict [(lit "type", VStr (lit "ping"))]).
Proof. vm_compute. reflexivity. Qed.

Lemma on_frame_message_witness :
  JsonRef.loads message_frame_text
  = Return (VDict [(lit "type", VStr (lit "message"));
                   (lit "content", VStr (lit "Hi"))])
  /\ exists w',
       Endpoint.on_frame (fixed_run (Return five_text)) JsonRef.loads deliver
         1 (lit "test-client") message_frame_text full_world
       = Some (Return tt, w')
       /\ history_of (lit "test-client") (manager w')
          = slice_last 20
              (history_of (lit "test-client") full_manager
               ++ [mk_message (lit "user") (lit "Hi");
                   mk_message (lit "assistant") (avatar_response (lit "Hi"))])
       /\ active_connections (manager w') = [1]
       /\ engine w' = tt
       /\ wire w'
          = [MessageFrame (lit "user") (lit "Hi");
             MessageFrame (lit "assistant") (avatar_response (lit "Hi"))].
Proof.
  split; [exact message_frame_decodes|].
  exact (on_frame_message (fixed_run (Return five_text)) JsonRef.loads deliver
           1 (lit "test-client") message_frame_text full_world _ (lit "Hi") _ _
           message_frame_decodes eq_refl eq_refl eq_refl eq_refl).
Defined.

Lemma on_frame_message_echo_fails_witness :
  refuse 1 (MessageFrame (lit "user") (lit "Hi")) [] = (Raise WebSocketDisconnect, [])
  /\ exists w',
       Endpoint.on_frame (fixed_run (Return five_text)) JsonRef.loads refuse
         1 (lit "test-client") message_frame_text full_world
       = Some (Raise WebSocketDisconnect, w')
       /\ history_of (lit "test-client") (manager w')
          = slice_last 20
              (history_of (lit "test-client") full_manager
               ++ [mk_message (lit "user") (lit "Hi")])
       /\ wire w' = [].
Proof.
  split; [reflexivity|].
  exact (on_frame_message_echo_fails (fixed_run (Return five_text)) JsonRef.loads
           refuse 1 (lit "test-client") message_frame_text full_world _ (lit "Hi")
           _ _ message_frame_decodes eq_refl eq_refl eq_refl).
Defined.

Lemma on_frame_get_suggestions_witness :
  JsonRef.loads get_suggestions_frame_text
  = Return (VDict [(lit "type", VStr (lit "get_suggestions"))])
  /\ exists o w',
       Endpoint.on_frame (fixed_run (Raise JSONDecodeError)) JsonRef.loads deliver
         1 (lit "test-client") get_suggestions_frame_text full_world
       = Some (o, w')
       /\ manager w' = full_manager
       /\ engine w' = tt
       /\ (forall e,
             (get_contextual_suggestions (fixed_run (Raise JSONDecodeError))
                JsonRef.loads (history_of (lit "test-client") full_manager)
                [] None tt).1 = Raise e ->
             o = Raise e /\ wire w' = []).
Proof.
  split; [exact get_suggestions_frame_decodes|].
  exact (on_frame_get_suggestions (fixed_run (Raise JSONDecodeError)) JsonRef.loads
           deliver 1 (lit "test-client") get_suggestions_frame_text full_world _
           get_suggestions_frame_decodes eq_refl).
Defined.

Lemma serve_unreadable_frame_witness :
  JsonRef.loads (lit "hello") = Raise JSONDecodeError
  /\ Endpoint.serve (fixed_run (Return five_text)) JsonRef.loads deliver
       1 (lit "test-client") [Text (lit "hello"); Text message_frame_text]
       full_world
     = Some (Done (Raise JSONDecodeError), full_world).
Proof.
  assert (J : JsonRef.loads (lit "hello") = Raise JSONDecodeError)
    by (vm_compute; reflexivity).
  split; [exact J|].
  exact (proj1 (serve_unreadable_frame (fixed_run (Return five_text)) JsonRef.loads
                  deliver 1 (lit "test-client") (lit "hello")
                  [Text message_frame_text] full_world) J).
Defined.

Lemma serve_backend_decode_error_witness :
  JsonRef.loads get_suggestions_frame_text
  = Return (VDict [(lit "type", VStr (lit "get_suggestions"))])
  /\ exists b,
       Endpoint.serve (fixed_run (Raise JSONDecodeError)) JsonRef.loads deliver
         1 (lit "test-client")
         [Text get_suggestions_frame_text; Text message_frame_text] full_world
       = Some (Done (Raise (UnboundLocalError (lit "response"))),
               mkWorld full_manager b []).
Proof.
  split; [exact get_suggestions_frame_decodes|].
  exact (serve_backend_decode_error (fixed_run (Raise JSONDecodeError))
           JsonRef.loads deliver 1 (lit "test-client") get_suggestions_frame_text
           [Text message_frame_text] full_world _ get_suggestions_frame_decodes
           eq_refl eq_refl).
Defined.

Lemma serve_disconnect_witness :
  In 1 (active_connections (manager full_world))
  /\ exists m,
       disconnect 1 (lit "test-client") full_manager = Return m
       /\ Endpoint.serve (fixed_run (Return five_text)) JsonRef.loads deliver
            1 (lit "test-client") [ReceiveError WebSocketDisconnect] full_world
          = Some (Done (Return tt), mkWorld m tt [])
       /\ conversation_histories m !! lit "test-client" = None
       /\ length (active_connections full_manager) = S (length (active_connections m)).
Proof.
  assert (H : In 1 (active_connections (manager full_world))) by (now left).
  split; [exact H|].
  exact (serve_disconnect (fixed_run (Return five_text)) JsonRef.loads deliver
           1 (lit "test-client") [] full_world H).
Defined.

Lemma serve_other_type_witness :
  JsonRef.loads ping_frame_text = Return (VDict [(lit "type", VStr (lit "ping"))])
  /\ Endpoint.serve (fixed_run (Return five_text)) JsonRef.loads deliver
       1 (lit "test-client") [Text ping_frame_text] full_world
     = Endpoint.serve (fixed_run (Return five_text)) JsonRef.loads deliver
         1 (lit "test-client") [] full_world.
Proof.
  split; [exact ping_frame_decodes|].
  exact (serve_other_type (fixed_run (Return five_text)) JsonRef.loads deliver
           1 (lit "test-client") ping_frame_text [] full_world _ _
           ping_frame_decodes eq_refl eq_refl eq_refl).
Defined.

Lemma serve_message_frame :
  Endpoint.serve (fixed_run (Return five_text)) JsonRef.loads deliver
    1 (lit "test-client") [Text message_frame_text] full_world
  = Some (Waiting,
          mkWorld
            (add_messages (lit "test-client")
               [(lit "user", lit "Hi");
                (lit "assistant", avatar_response (lit "Hi"))] full_manager)
            tt
            [MessageFrame (lit "user") (lit "Hi");
             MessageFrame (lit "assistant") (avatar_response (lit "Hi"))]).
Proof.
  vm_compute. reflexivity.
Qed.


Lemma suggestions_after_message_witness :
  JsonRef.loads message_frame_text
  = Return (VDict [(lit "type", VStr (lit "message"));
                   (lit "content", VStr (lit "Hi"))])
  /\ JsonRef.loads get_suggestions_frame_text
     = Return (VDict [(lit "type", VStr (lit "get_suggestions"))])
  /\ exists w1 o w2,
       Endpoint.on_frame (recording_run (fixed_run (Return five_text)))
         JsonRef.loads deliver 1 (lit "test-client") message_frame_text
         (mkWorld full_manager (tt, []) [])
       = Some (Return tt, w1)
       /\ Endpoint.on_frame (recording_run (fixed_run (Return five_text)))
            JsonRef.loads deliver 1 (lit "test-client")
            get_suggestions_frame_text w1
          = Some (o, w2)
       /\ engine w2
          = (recording_run (fixed_run (Return five_text))
               (format_history
                  (slice_last 3 (history_of (lit "test-client") full_manager))
                ++ (lit "user: " ++ lit "Hi" ++ [LF])
                ++ (lit "assistant: I understand you said: " ++ lit "Hi" ++ [LF]))
               (lit "General conversation") [] (tt, [])).2.
Proof.
  split; [exact message_frame_decodes|].
  split; [exact get_suggestions_frame_decodes|].
  exact (suggestions_after_message (recording_run (fixed_run (Return five_text)))
           JsonRef.loads deliver 1 (lit "test-client") message_frame_text
           get_suggestions_frame_text (mkWorld full_manager (tt, []) []) _ _
           (lit "Hi") _ _ message_frame_decodes eq_refl eq_refl eq_refl eq_refl
           get_suggestions_frame_decodes eq_refl).
Defined.


End EndpointProperties.

(** * The cleaning of a line, against the words of the specification *)

Section StripShape.

Variable p : char -> bool.

Lemma lstrip_by_all a x : forallb p a = true -> lstrip_by p (a ++ x) = lstrip_by p x.
Proof.
  induction a as [|c a IH]; [reflexivity|]. simpl.
  intros [Hc Ha]%andb_true_iff. rewrite Hc. now apply IH.
Qed.

Lemma lstrip_by_stop c x : p c = false -> lstrip_by p (c :: x) = c :: x.
Proof. intros H. simpl. now rewrite H. Qed.

Lemma lstrip_by_suffix s : exists a, s = a ++ lstrip_by p s /\ forallb p a = true.
Proof.
  induction s as [|c s (a & E & Ha)].
  - now exists [].
  - simpl. destruct (p c) eqn:Hc.
    + exists (c :: a). simpl. rewrite Hc, Ha. split; [now f_equal|reflexivity].
    + now exists [].
Qed.

Lemma rstrip_by_suffix s : exists b, s = rstrip_by p s ++ b /\ forallb p b = true.
Proof.
  unfold rstrip_by. destruct (lstrip_by_suffix (rev s)) as (a & E & Ha).
  exists (rev a). split.
  - rewrite <- rev_app_distr, <- E. now rewrite rev_involutive.
  - now rewrite forallb_rev.
Qed.

Lemma strip_by_decompose s :
  exists a b, s = a ++ strip_by p s ++ b
              /\ forallb p a = true /\ forallb p b = true.
Proof.
  unfold strip_by. destruct (lstrip_by_suffix s) as (a & E & Ha).
  destruct (rstrip_by_suffix (lstrip_by p s)) as (b & E' & Hb).
  exists a, b. split; [|now split]. now rewrite <- E', <- E.
Qed.

(** A string between two runs of stripped characters, with no such
    character at its own ends, is what stripping gives. *)
Lemma strip_by_unique a core b :
  forallb p a = true -> forallb p b = true ->
  (forall c u, core = c :: u -> p c = false) ->
  (forall u c, core = u ++ [c] -> p c = false) ->
  strip_by p (a ++ core ++ b) = core.
Proof.
  intros Ha Hb Hhead Hlast. unfold strip_by. rewrite lstrip_by_all by exact Ha.
  destruct core as [|c u].
  - simpl. replace b with (b ++ []) by apply app_nil_r.
    now rewrite lstrip_by_all.
  - simpl app at 1. rewrite lstrip_by_stop by (eapply Hhead; reflexivity).
    unfold rstrip_by. change (c :: u ++ b) with ((c :: u) ++ b).
    rewrite rev_app_distr, lstrip_by_all by (now rewrite forallb_rev).
    destruct (exists_last (l:=c :: u)) as (u' & d & E); [discriminate|].
    rewrite E, rev_unit, lstrip_by_stop by (eapply Hlast; exact E).
    now rewrite <- rev_unit, rev_involutive.
Qed.

Lemma strip_by_rev s : strip_by p (rev s) = rev (strip_by p s).
Proof.
  destruct (strip_by_decompose s) as (a & b & E & Ha & Hb).
  rewrite E at 1. rewrite !rev_app_distr, <- app_assoc.
  apply strip_by_unique; rewrite ?forallb_rev; try assumption.
  - intros c u H. apply (f_equal (@rev _)) in H.
    rewrite rev_involutive in H. simpl in H.
    exact (strip_by_last p s _ _ H).
  - intros u c H. apply (f_equal (@rev _)) in H.
    rewrite rev_involutive, rev_unit in H.
    exact (strip_by_head p s _ _ H).
Qed.

End StripShape.

Lemma clean_line_rev line : clean_line (rev line) = rev (clean_line line).
Proof. unfold clean_line, strip, strip_chars. now rewrite !strip_by_rev. Qed.

Lemma forallb_weaken (f g : char -> bool) (s : str) :
  (forall c, f c = true -> g c = true) -> forallb f s = true -> forallb g s = true.
Proof.
  intros H. induction s as [|c s IH]; [reflexivity|]. simpl.
  intros [Hc Hs]%andb_true_iff. now rewrite (H c Hc), IH.
Qed.

(** The cleaned line sits in the line between two runs of whitespace,
    quotes and dashes. *)
Lemma clean_line_decompose line :
  exists a b,
    line = a ++ clean_line line ++ b
    /\ forallb (fun c => isspace c || is_quote_dash c) a = true
    /\ forallb (fun c => isspace c || is_quote_dash c) b = true.
Proof.
  unfold clean_line, strip, strip_chars.
  destruct (strip_by_decompose isspace line) as (a1 & b1 & E1 & Ha1 & Hb1).
  destruct (strip_by_decompose (mem [QUOTE; DASH]) (strip_by isspace line))
    as (a2 & b2 & E2 & Ha2 & Hb2).
  destruct (strip_by_decompose isspace
              (strip_by (mem [QUOTE; DASH]) (strip_by isspace line)))
    as (a3 & b3 & E3 & Ha3 & Hb3).
  exists (a1 ++ a2 ++ a3), (b3 ++ b2 ++ b1). split.
  - rewrite E1 at 1. rewrite E2 at 1. rewrite E3 at 1.
    now rewrite <- !app_assoc.
  - assert (HW : forall s, forallb isspace s = true ->
                 forallb (fun c => isspace c || is_quote_dash c) s = true).
    { intros s. apply forallb_weaken. intros c ->. reflexivity. }
    assert (HQ : forall s, forallb (mem [QUOTE; DASH]) s = true ->
                 forallb (fun c => isspace c || is_quote_dash c) s = true).
    { intros s. apply forallb_weaken. unfold is_quote_dash. intros c ->.
      apply orb_true_r. }
    rewrite !forallb_app, !andb_true_iff. auto 10.
Qed.

Lemma lstrip_by_strip (p : char -> bool) s :
  exists b, lstrip_by p s = strip_by p s ++ b.
Proof.
  unfold strip_by. destruct (rstrip_by_suffix p (lstrip_by p s)) as (b & E & _).
  now exists b.
Qed.

(** When the cleaned line is not empty, the three strips on the left alone
    leave it at the start of what they give. *)
Lemma one_run_left_head line c u :
  clean_line line = c :: u ->
  exists rest,
    lstrip_by isspace (lstrip_by is_quote_dash (lstrip_by isspace line))
    = c :: rest.
Proof.
  unfold clean_line, strip, strip_chars, is_quote_dash. intros H.
  destruct (lstrip_by_strip isspace line) as (b1 & E1).
  destruct (lstrip_by_strip (mem [QUOTE; DASH]) (strip_by isspace line))
    as (b2 & E2).
  destruct (lstrip_by_strip isspace
              (strip_by (mem [QUOTE; DASH]) (strip_by isspace line)))
    as (b3 & E3).
  rewrite H in E3.
  assert (N2 : strip_by (mem [QUOTE; DASH]) (strip_by isspace line) <> []).
  { intros N. rewrite N in H. discriminate. }
  exists (u ++ b3 ++ b2 ++ b1).
  rewrite E1, lstrip_by_app, E2.
  - rewrite <- app_assoc, lstrip_by_app, E3 by (rewrite E3; discriminate).
    now rewrite <- app_assoc.
  - rewrite E2. intros N. apply app_eq_nil in N as [N _]. contradiction.
Qed.

(** On a line whose quotes and dashes at each end are one run, the code's
    three strips give the line of the specification. *)
Lemma clean_line_one_run line :
  one_run line = true -> clean_line line = spec_clean_line line.
Proof.
  unfold one_run. intros [Hl Hr]%andb_true_iff.
  destruct (clean_line_decompose line) as (a & b & E & Ha & Hb).
  symmetry. unfold spec_clean_line. rewrite E at 1.
  apply strip_by_unique; try assumption.
  - intros c u H. apply orb_false_iff. split.
    + unfold clean_line, strip in H. exact (strip_by_head _ _ _ _ H).
    + destruct (one_run_left_head line c u H) as (rest & Hrest).
      unfold one_run_left in Hl. rewrite Hrest in Hl.
      now apply negb_true_iff in Hl.
  - intros u c H. apply orb_false_iff. split.
    + unfold clean_line, strip in H. exact (strip_by_last _ _ _ _ H).
    + assert (Hrev : clean_line (rev line) = c :: rev u).
      { rewrite clean_line_rev, H. apply rev_unit. }
      destruct (one_run_left_head (rev line) c (rev u) Hrev) as (rest & Hrest).
      unfold one_run_left in Hr. rewrite Hrest in Hr.
      now apply negb_true_iff in Hr.
Qed.

Lemma map_clean_line_one_run lines :
  forallb one_run lines = true ->
  List.map clean_line lines = List.map spec_clean_line lines.
Proof.
  induction lines as [|line lines IH]; [reflexivity|]. simpl.
  intros [H1 H2]%andb_true_iff. now rewrite clean_line_one_run, IH.
Qed.

Section RecoveryAsClaimed.

Context {backend : Type}.
Variable run : str -> str -> str -> backend -> outcome str * backend.
Variable json_loads : str -> outcome pyval.
Implicit Types (h t p : str) (b : backend).

Local Abbreviation generate := (generate_suggestions run json_loads).

(** C5, amended. When the decoder fails on the text of the backend, and on
    every line of the text the quotes and dashes at each end are one run
    (no quote or dash behind whitespace, as there is in a dash, a space and
    a quoted word), [generate_suggestions] returns the first at most 3 of
    the kept lines: the text is split at line feeds, each line is stripped
    of surrounding whitespace and of leading and trailing quotes and dashes,
    and a stripped line is kept exactly when it is not empty and does not
    start with an opening or closing bracket. *)
Theorem generate_suggestions_recovery_as_claimed h t p b response :
  (run h t p b).1 = Return response ->
  json_loads (strip response) = Raise JSONDecodeError ->
  forallb one_run (split LF response) = true ->
  (generate h t p b).1
  = Return (List.map VStr
              (take 3 (List.filter keep_line
                         (List.map spec_clean_line (split LF response)))))
  /\ (forall cleaned,
        keep_line cleaned = true <->
        cleaned <> [] /\ startswith cleaned LBRACKET = false
        /\ startswith cleaned RBRACKET = false).
Proof.
  intros E Hj Hr. split.
  - rewrite (generate_decode_error _ _ _ _ _ _ _ E Hj), split_recovery_raw.
    unfold cleaned_lines. now rewrite map_clean_line_one_run.
  - intros cleaned. unfold keep_line.
    rewrite !andb_true_iff, !negb_true_iff.
    destruct cleaned; simpl; intuition congruence.
Qed.


End RecoveryAsClaimed.

(** C5, as stated, fails twice. On the two lines [[abc] and [foo] the
    decoder fails, the specification keeps both lines (the first is not
    exactly one bracket), and the code drops the first. On two lines that
    are each a dash, a space and a quoted letter, the specification strips
    the lines to the letters, and the code leaves the quote in front of
    each letter. *)
Lemma line_recovery_not_as_claimed :
  (JsonRef.loads (strip bracket_line_text) = Raise JSONDecodeError
   /\ claimed_split_recovery bracket_line_text
      = [VStr (lit "[abc"); VStr (lit "foo")]
   /\ (generate_suggestions (fixed_run (Return bracket_line_text)) JsonRef.loads
         [] [] [] tt).1 = Return [VStr (lit "foo")])
  /\ (JsonRef.loads (strip dash_quote_text) = Raise JSONDecodeError
      /\ claimed_split_recovery dash_quote_text = [VStr (lit "A"); VStr (lit "B")]
      /\ (generate_suggestions (fixed_run (Return dash_quote_text)) JsonRef.loads
            [] [] [] tt).1
         = Return [VStr (QUOTE :: lit "A"); VStr (QUOTE :: lit "B")]).
Proof.
  split.
  - split; [vm_compute; reflexivity|]. split; vm_compute; reflexivity.
  - split; [vm_compute; reflexivity|]. split; vm_compute; reflexivity.
Qed.

(** C5 as amended, at a line that starts with a bracket, a quoted line and
    a dashed line: the last two come back, stripped. *)
Lemma generate_suggestions_recovery_as_claimed_witness :
  (fixed_run (Return recovery_text) [] [] [] tt).1 = Return recovery_text
  /\ JsonRef.loads (strip recovery_text) = Raise JSONDecodeError
  /\ forallb one_run (split LF recovery_text) = true
  /\ (generate_suggestions (fixed_run (Return recovery_text)) JsonRef.loads
        [] [] [] tt).1
     = Return [VStr (lit "foo"); VStr (lit "bar")].
Proof.
  assert (J : JsonRef.loads (strip recovery_text) = Raise JSONDecodeError)
    by (vm_compute; reflexivity).
  assert (R : forallb one_run (split LF recovery_text) = true)
    by (vm_compute; reflexivity).
  split; [reflexivity|]. split; [exact J|]. split; [exact R|].
  exact (proj1 (generate_suggestions_recovery_as_claimed
                  (fixed_run (Return recovery_text)) JsonRef.loads [] [] [] tt
                  recovery_text eq_refl J R)).
Defined.


